(** * Habit tracker backend: sprints, weighted habits and daily scores

    A shallow embedding of [backend/main.py]: the three tables, the five
    endpoints ([create_sprint], [get_sprint], [get_daily_efforts],
    [log_effort], [delete_sprint]) and the properties of the scoring loop,
    of the effort upsert and of the cascade delete.

    Modelling choices.
    - A table is the list of its rows in insertion order; [fetch_all] is a
      filter, [fetch_one] the first match, an [insert] appends a row whose
      primary key is one more than the largest key of the table (the rule
      SQLite applies to an integer primary key), an [update] rewrites the
      matching rows in place and a [delete] drops them.
    - A [date] is its proleptic ordinal, so [(a - b).days] is [a - b] on [Z].
      The queries built from the tables return a Date column as a [date];
      the raw SQL text of [get_sprint] returns what SQLite stores, the ISO
      text of the date, a [str], and [str - date] raises [TypeError].
    - A Python [float] is an exact rational ([Qc]); rounding is not
      modelled.  Division by zero raises, as [float.__truediv__] does.
    - An exception is a value; [try ... except Exception as e: raise
      HTTPException(500, str(e))] is the function [except_Exception]. *)

From Stdlib Require Import ZArith QArith Qcanon.
From stdpp Require Import base tactics option list numbers strings gmap.

Open Scope Z_scope.

(** ** Values *)

Definition date := Z.
Definition datetime := Z.
Abbreviation float := Qc.

(** ** Exceptions and results *)

Inductive exn : Type :=
| HTTPException (status_code : Z) (detail : message)
| ZeroDivisionError (msg : string)
| TypeError (msg : string)
| IndexError (msg : string)
with message : Type :=
| Text (s : string)
| str (e : exn).

Inductive result (A : Type) : Type :=
| Ok (a : A)
| Raise (e : exn).
Arguments Ok {A} a.
Arguments Raise {A} e.

#[global] Instance result_ret : MRet result := λ A a, Ok a.
#[global] Instance result_bind : MBind result := λ A B k r,
  match r with
  | Ok a => k a
  | Raise e => Raise e
  end.

(** [except Exception as e: raise HTTPException(status_code=500, detail=str(e))] *)
Definition except_Exception {A : Type} (r : result A) : result A :=
  match r with
  | Ok a => Ok a
  | Raise e => Raise (HTTPException 500 (str e))
  end.

(** ** Tables *)

Module sprints.
Record row : Type := Row {
  id : Z;
  name : string;
  start_date : date;
  end_date : date;
  created_at : datetime
}.
End sprints.

Module habits.
Record row : Type := Row {
  id : Z;
  sprint_id : Z;
  name : string;
  weight : float;
  target_hours : float
}.
End habits.

Module effort_logs.
Record row : Type := Row {
  id : Z;
  habit_id : Z;
  date : Z;
  hours : float;
  created_at : datetime
}.
End effort_logs.

Record Database : Type := {
  sprints_t : list sprints.row;
  habits_t : list habits.row;
  effort_logs_t : list effort_logs.row
}.

Definition empty_db : Database :=
  {| sprints_t := []; habits_t := []; effort_logs_t := [] |}.

(** The primary key given to the next inserted row. *)
Definition next_id (ids : list Z) : Z := 1 + foldr Z.max 0 ids.

(** ** Request bodies *)

Record HabitCreate : Type := {
  hc_name : string;
  hc_weight : float;
  hc_target_hours : float
}.

Record SprintCreate : Type := {
  sc_name : string;
  sc_start_date : date;
  sc_end_date : date;
  sc_habits : list HabitCreate
}.

Record EffortCreate : Type := {
  ec_habit_id : Z;
  ec_date : date;
  ec_hours : float
}.

(** ** Float operations *)

Definition float_eqb (x y : float) : bool :=
  match (x ?= y)%Qc with Eq => true | _ => false end.

Definition float_ltb (x y : float) : bool :=
  match (x ?= y)%Qc with Lt => true | _ => false end.

(** [x / y] on floats. *)
Definition truediv (x y : float) : result float :=
  if float_eqb y 0%Qc then Raise (ZeroDivisionError "float division by zero")
  else Ok (x / y)%Qc.

(** [min(x, y)]: the first argument unless the second is smaller. *)
Definition py_min (x y : float) : float :=
  if float_ltb y x then y else x.

(** ** Queries *)

Definition fetch_all {A : Type} (P : A → Prop) `{!∀ x, Decision (P x)}
  (table : list A) : list A := filter P table.

Definition fetch_one {A : Type} (P : A → Prop) `{!∀ x, Decision (P x)}
  (table : list A) : option A := head (filter P table).

(** A value read from a Date column: a [date] when the query is built
    from the table, so that SQLAlchemy converts it; the [str] that SQLite
    stores, the ISO text of the date, when the query is raw SQL. *)
Inductive date_column : Type :=
| as_date (d : date)
| as_str (isoformat : date).

#[global] Instance date_column_eq_dec : EqDecision date_column.
Proof. solve_decision. Defined.

Definition unsupported_sub : string :=
  "unsupported operand type(s) for -: 'str' and 'datetime.date'".

(** [x - y] for a [date] [y], and the [days] of the difference. *)
Definition date_sub (x : date_column) (y : date) : result Z :=
  match x with
  | as_date d => Ok (d - y)
  | as_str _ => Raise (TypeError unsupported_sub)
  end.

(** A row of the join of [effort_logs] with [habits] selected by
    [get_sprint] with raw SQL:
    [e.date, e.hours, e.habit_id, h.weight, h.target_hours]. *)
Record effort : Type := {
  e_date : date_column;
  e_hours : float;
  e_habit_id : Z;
  h_weight : float;
  h_target_hours : float
}.

Definition join_row (e : effort_logs.row) (h : habits.row) : effort :=
  {| e_date := as_str (effort_logs.date e);
     e_hours := effort_logs.hours e;
     e_habit_id := effort_logs.habit_id e;
     h_weight := habits.weight h;
     h_target_hours := habits.target_hours h |}.

(** [SELECT ... FROM effort_logs e JOIN habits h ON e.habit_id = h.id
    WHERE h.sprint_id = :sprint_id] *)
Definition effort_query (db : Database) (sprint_id : Z) : list effort :=
  e ← effort_logs_t db;
  join_row e <$>
    filter (λ h, effort_logs.habit_id e = habits.id h ∧ habits.sprint_id h = sprint_id)
           (habits_t db).

(** ** GET /api/sprints/{sprint_id} *)

Record SprintResponse : Type := {
  r_id : Z;
  r_name : string;
  r_start_date : date;
  r_end_date : date;
  r_habits : list habits.row;
  r_days : list (option float)
}.

(** [days_count = (sprint.end_date - sprint.start_date).days + 1] *)
Definition sprint_days_count (sprint : sprints.row) : Z :=
  sprints.end_date sprint - sprints.start_date sprint + 1.

(** [day_index = (effort.date - sprint.start_date).days] *)
Definition day_index (sprint : sprints.row) (e : effort) : result Z :=
  date_sub (e_date e) (sprints.start_date sprint).

(** [progress * effort.weight] with [progress = min(hours / target_hours, 1)]. *)
Definition score (e : effort) : result float :=
  q ← truediv (e_hours e) (h_target_hours e);
  let progress := py_min q 1%Qc in
  mret (progress * h_weight e)%Qc.

(** The body of [for effort in efforts]. *)
Definition score_effort (sprint : sprints.row) (days_count : Z)
    (days : list (option float)) (e : effort) : result (list (option float)) :=
  day_index ← day_index sprint e;
  if bool_decide (0 ≤ day_index < days_count) then
    score ← score e;
    match days !! Z.to_nat day_index with
    | None => Raise (IndexError "list index out of range")
    | Some None => Ok (<[Z.to_nat day_index := Some score]> days)
    | Some (Some v) => Ok (<[Z.to_nat day_index := Some (v + score)%Qc]> days)
    end
  else Ok days.

Fixpoint score_efforts (sprint : sprints.row) (days_count : Z)
    (efforts : list effort) (days : list (option float))
    : result (list (option float)) :=
  match efforts with
  | [] => Ok days
  | e :: efforts =>
      days ← score_effort sprint days_count days e;
      score_efforts sprint days_count efforts days
  end.

Definition get_sprint (db : Database) (sprint_id : Z) : result SprintResponse :=
  except_Exception (
    match fetch_one (λ s, sprints.id s = sprint_id) (sprints_t db) with
    | None => Raise (HTTPException 404 (Text "Sprint not found"))
    | Some sprint =>
        let sprint_habits :=
          fetch_all (λ h, habits.sprint_id h = sprint_id) (habits_t db) in
        let days_count := sprint_days_count sprint in
        let days := replicate (Z.to_nat days_count) None in
        let efforts := effort_query db sprint_id in
        days ← score_efforts sprint days_count efforts days;
        Ok {| r_id := sprints.id sprint;
              r_name := sprints.name sprint;
              r_start_date := sprints.start_date sprint;
              r_end_date := sprints.end_date sprint;
              r_habits := sprint_habits;
              r_days := days |}
    end).

(** ** GET /api/sprints/{sprint_id}/efforts/{date} *)

Record DailyEffort : Type := {
  habit_name : string;
  habit_id : Z;
  hours : float
}.

Definition daily_effort (db : Database) (date : date) (habit : habits.row)
    : DailyEffort :=
  let effort :=
    fetch_one (λ r, effort_logs.habit_id r = habits.id habit ∧ effort_logs.date r = date)
              (effort_logs_t db) in
  {| habit_name := habits.name habit;
     habit_id := habits.id habit;
     hours := match effort with Some e => effort_logs.hours e | None => 0%Qc end |}.

Definition get_daily_efforts (db : Database) (sprint_id : Z) (date : date)
    : result (list DailyEffort) :=
  except_Exception (
    let sprint_habits :=
      fetch_all (λ h, habits.sprint_id h = sprint_id) (habits_t db) in
    match sprint_habits with
    | [] => Raise (HTTPException 404 (Text "Sprint not found or has no habits"))
    | _ => Ok (daily_effort db date <$> sprint_habits)
    end).

(** ** POST /api/efforts *)

Inductive EffortResponse : Type :=
| Message (message : string)
| EffortId (effort_id : Z).

Definition same_key (e : EffortCreate) (r : effort_logs.row) : Prop :=
  effort_logs.habit_id r = ec_habit_id e ∧ effort_logs.date r = ec_date e.

#[global] Instance same_key_dec e r : Decision (same_key e r).
Proof. unfold same_key. apply _. Defined.

Definition set_hours (h : float) (r : effort_logs.row) : effort_logs.row :=
  {| effort_logs.id := effort_logs.id r;
     effort_logs.habit_id := effort_logs.habit_id r;
     effort_logs.date := effort_logs.date r;
     effort_logs.hours := h;
     effort_logs.created_at := effort_logs.created_at r |}.

(** [effort_logs.update().where(...).values(hours=...)] *)
Definition update_hours (e : EffortCreate) (table : list effort_logs.row)
    : list effort_logs.row :=
  (λ r, if decide (same_key e r) then set_hours (ec_hours e) r else r) <$> table.

Definition log_effort (now : datetime) (e : EffortCreate) (db : Database)
    : result EffortResponse * Database :=
  match fetch_one (same_key e) (effort_logs_t db) with
  | Some _ =>
      (except_Exception (Ok (Message "Effort updated successfully")),
       {| sprints_t := sprints_t db;
          habits_t := habits_t db;
          effort_logs_t := update_hours e (effort_logs_t db) |})
  | None =>
      let effort_id := next_id (effort_logs.id <$> effort_logs_t db) in
      (except_Exception (Ok (EffortId effort_id)),
       {| sprints_t := sprints_t db;
          habits_t := habits_t db;
          effort_logs_t := effort_logs_t db ++
            [ {| effort_logs.id := effort_id;
                 effort_logs.habit_id := ec_habit_id e;
                 effort_logs.date := ec_date e;
                 effort_logs.hours := ec_hours e;
                 effort_logs.created_at := now |} ] |})
  end.

(** ** POST /api/sprints *)

Record CreateResponse : Type := {
  c_sprint_id : Z;
  c_habit_ids : gmap string Z
}.

(** The body of [for habit in sprint.habits]: insert the habit, then
    [habit_ids[habit.name] = habit_id]. *)
Definition create_habit (sprint_id : Z)
    (st : list habits.row * gmap string Z) (habit : HabitCreate)
    : list habits.row * gmap string Z :=
  let habit_id := next_id (habits.id <$> st.1) in
  (st.1 ++ [ {| habits.id := habit_id;
                habits.sprint_id := sprint_id;
                habits.name := hc_name habit;
                habits.weight := hc_weight habit;
                habits.target_hours := hc_target_hours habit |} ],
   <[hc_name habit := habit_id]> st.2).

Definition create_sprint (now : datetime) (sprint : SprintCreate) (db : Database)
    : result CreateResponse * Database :=
  let sprint_id := next_id (sprints.id <$> sprints_t db) in
  let sprints' := sprints_t db ++
    [ {| sprints.id := sprint_id;
         sprints.name := sc_name sprint;
         sprints.start_date := sc_start_date sprint;
         sprints.end_date := sc_end_date sprint;
         sprints.created_at := now |} ] in
  let st := foldl (create_habit sprint_id) (habits_t db, ∅) (sc_habits sprint) in
  (except_Exception (Ok {| c_sprint_id := sprint_id; c_habit_ids := st.2 |}),
   {| sprints_t := sprints';
      habits_t := st.1;
      effort_logs_t := effort_logs_t db |}).

(** ** DELETE /api/sprints/{sprint_id} *)

(** [effort_logs.delete().where(effort_logs.c.habit_id == habit.id)] *)
Definition delete_effort_logs (db : Database) (habit : habits.row) : Database :=
  {| sprints_t := sprints_t db;
     habits_t := habits_t db;
     effort_logs_t :=
       filter (λ r, effort_logs.habit_id r ≠ habits.id habit) (effort_logs_t db) |}.

(** [habits.delete().where(habits.c.sprint_id == sprint_id)] *)
Definition delete_habits (sprint_id : Z) (db : Database) : Database :=
  {| sprints_t := sprints_t db;
     habits_t := filter (λ h, habits.sprint_id h ≠ sprint_id) (habits_t db);
     effort_logs_t := effort_logs_t db |}.

(** [sprints.delete().where(sprints.c.id == sprint_id)] *)
Definition delete_sprints (sprint_id : Z) (db : Database) : Database :=
  {| sprints_t := filter (λ s, sprints.id s ≠ sprint_id) (sprints_t db);
     habits_t := habits_t db;
     effort_logs_t := effort_logs_t db |}.

(** The first part of [delete_sprint]: fetch the habits of the sprint and
    delete the effort logs of each. *)
Definition delete_sprint_efforts (sprint_id : Z) (db : Database) : Database :=
  let sprint_habits :=
    fetch_all (λ h, habits.sprint_id h = sprint_id) (habits_t db) in
  foldl delete_effort_logs db sprint_habits.

Definition delete_sprint (sprint_id : Z) (db : Database)
    : result EffortResponse * Database :=
  let db := delete_sprint_efforts sprint_id db in
  let db := delete_habits sprint_id db in
  let db := delete_sprints sprint_id db in
  (except_Exception (Ok (Message "Sprint deleted successfully")), db).

(** ** States of the service

    The databases the service can be in: the empty one, changed by any
    sequence of the three writing endpoints. *)
Inductive reachable : Database → Prop :=
| reachable_empty : reachable empty_db
| reachable_create now sprint db :
    reachable db → reachable (create_sprint now sprint db).2
| reachable_log now e db :
    reachable db → reachable (log_effort now e db).2
| reachable_delete sprint_id db :
    reachable db → reachable (delete_sprint sprint_id db).2.

(** ** The scoring formula in the words of the specification *)

(** [min(hours / target_hours, 1) * weight] *)
Definition contribution (e : effort) : float :=
  (py_min (e_hours e / h_target_hours e) 1 * h_weight e)%Qc.

(** The effort logs of a (habit, date) pair. *)
Definition rows_for (habit_id : Z) (date : date) (table : list effort_logs.row)
    : list effort_logs.row :=
  filter (λ r, effort_logs.habit_id r = habit_id ∧ effort_logs.date r = date) table.

(** At most one effort log per (habit, date). *)
Definition unique_effort (db : Database) : Prop :=
  ∀ habit_id date, (length (rows_for habit_id date (effort_logs_t db)) ≤ 1)%nat.

(** Every habit belongs to a sprint of the store. *)
Definition habits_owned (db : Database) : Prop :=
  ∀ h, h ∈ habits_t db → ∃ s, s ∈ sprints_t db ∧ sprints.id s = habits.sprint_id h.

(** The responses of a failed request: what [except_Exception] makes of
    the 404 raised inside the [try], and of the [TypeError] of the date
    subtraction. *)
Definition not_found (detail : string) : exn :=
  HTTPException 500 (str (HTTPException 404 (Text detail))).

Definition type_error : exn :=
  HTTPException 500 (str (TypeError unsupported_sub)).

(** The habit row [create_sprint] inserts for the [i]-th submitted habit
    when [first] is the key of the first one. *)
Definition new_habit (sprint_id first : Z) (i : nat) (habit : HabitCreate)
    : habits.row :=
  {| habits.id := first + Z.of_nat i;
     habits.sprint_id := sprint_id;
     habits.name := hc_name habit;
     habits.weight := hc_weight habit;
     habits.target_hours := hc_target_hours habit |}.

(** [habit_ids] after [habit_ids[name] = id] for each of [rows] in order. *)
Definition record_ids (habit_ids : gmap string Z) (rows : list habits.row)
    : gmap string Z :=
  foldl (λ m h, <[habits.name h := habits.id h]> m) habit_ids rows.

(** ** Sample stores *)

(** A three-day sprint Q1 from 2024-01-01, whose ordinal is 738886, with
    one habit Read of weight 50 and target 2. *)
Definition Q1 : SprintCreate :=
  {| sc_name := "Q1"; sc_start_date := 738886; sc_end_date := 738888;
     sc_habits := [ {| hc_name := "Read"; hc_weight := Qc_of_Z 50;
                       hc_target_hours := Qc_of_Z 2 |} ] |}.

Definition db_Q1 : Database := (create_sprint 0 Q1 empty_db).2.

(** The [days] of a response, as plain fractions. *)
Definition days_of (r : result SprintResponse) : option (list (option Q)) :=
  match r with
  | Ok resp => Some (fmap (M := option) this <$> r_days resp)
  | Raise _ => None
  end.

Definition log (habit_id : Z) (date : date) (hours : Z) : EffortCreate :=
  {| ec_habit_id := habit_id; ec_date := date; ec_hours := Qc_of_Z hours |}.

(** Q1 after one hour of Read on the first day and three on the second. *)
Definition db_Q1_logged : Database :=
  (log_effort 0 (log 1 738887 3) (log_effort 0 (log 1 738886 1) db_Q1).2).2.

Definition sprint_Q1 : sprints.row :=
  {| sprints.id := 1; sprints.name := "Q1"; sprints.start_date := 738886;
     sprints.end_date := 738888; sprints.created_at := 0 |}.

(** A sprint from 2024-01-10 back to 2024-01-05, without habits. *)
Definition db_backwards : Database :=
  (create_sprint 0
     {| sc_name := "Back"; sc_start_date := 738895; sc_end_date := 738890;
        sc_habits := [] |}
     empty_db).2.

(** A sprint whose habit has a zero target, with one hour logged. *)
Definition db_zero_target : Database :=
  (log_effort 0 (log 1 738887 1)
    (create_sprint 0
      {| sc_name := "Q1"; sc_start_date := 738886; sc_end_date := 738888;
         sc_habits := [ {| hc_name := "Read"; hc_weight := Qc_of_Z 50;
                           hc_target_hours := Qc_of_Z 0 |} ] |}
      empty_db).2).2.

(** A three-day sprint without habits. *)
Definition db_habitless : Database :=
  (create_sprint 0
     {| sc_name := "Idle"; sc_start_date := 738886; sc_end_date := 738888;
        sc_habits := [] |}
     empty_db).2.

(** Two habits, the second without a log on day 738886. *)
Definition db_two_habits : Database :=
  (log_effort 0 (log 1 738886 3)
    (create_sprint 0
      {| sc_name := "Q2"; sc_start_date := 738886; sc_end_date := 738888;
         sc_habits := [ {| hc_name := "Read"; hc_weight := Qc_of_Z 50;
                           hc_target_hours := Qc_of_Z 2 |};
                        {| hc_name := "Run"; hc_weight := Qc_of_Z 50;
                           hc_target_hours := Qc_of_Z 1 |} ] |}
      empty_db).2).2.

(** Two habits that share the name Read, the second with a zero target, in
    a sprint that ends before it starts. *)
Definition twice_Read : SprintCreate :=
  {| sc_name := "Q3"; sc_start_date := 738886; sc_end_date := 738880;
     sc_habits := [ {| hc_name := "Read"; hc_weight := Qc_of_Z 70;
                       hc_target_hours := Qc_of_Z 2 |};
                    {| hc_name := "Read"; hc_weight := Qc_of_Z 70;
                       hc_target_hours := Qc_of_Z 0 |} ] |}.

(** The primary keys of each table are pairwise distinct. *)
Definition keys_distinct (db : Database) : Prop :=
  NoDup (sprints.id <$> sprints_t db)
  ∧ NoDup (habits.id <$> habits_t db)
  ∧ NoDup (effort_logs.id <$> effort_logs_t db).

(** What the update of [log_effort] makes of a joined row: the hours of the
    rows of the logged (habit, date) are replaced. *)
Definition set_effort_hours (e : EffortCreate) (j : effort) : effort :=
  if decide (e_habit_id j = ec_habit_id e ∧ e_date j = as_str (ec_date e))
  then {| e_date := e_date j; e_hours := ec_hours e; e_habit_id := e_habit_id j;
          h_weight := h_weight j; h_target_hours := h_target_hours j |}
  else j.

(** A sprint whose habit has a zero target, with one hour logged a week
    after the sprint ended. *)
Definition db_zero_target_outside : Database :=
  (log_effort 0 (log 1 738895 1)
    (create_sprint 0
      {| sc_name := "Q1"; sc_start_date := 738886; sc_end_date := 738888;
         sc_habits := [ {| hc_name := "Read"; hc_weight := Qc_of_Z 50;
                           hc_target_hours := Qc_of_Z 0 |} ] |}
      empty_db).2).2.

(** A second sprint, with one habit Swim, beside the two habits of Q2. *)
Definition db_two_sprints : Database :=
  (create_sprint 0
     {| sc_name := "Q4"; sc_start_date := 738886; sc_end_date := 738888;
        sc_habits := [ {| hc_name := "Swim"; hc_weight := Qc_of_Z 30;
                          hc_target_hours := Qc_of_Z 1 |} ] |}
     db_two_habits).2.

(** * Properties *)

(** ** Floats *)

Lemma float_eqb_eq (x y : float) : float_eqb x y = true ↔ x = y.
Proof.
  unfold float_eqb. rewrite Qceq_alt.
  destruct (x ?= y)%Qc; split; congruence.
Qed.

Lemma float_ltb_lt (x y : float) : float_ltb x y = true ↔ (x < y)%Qc.
Proof.
  unfold float_ltb. rewrite Qclt_alt.
  destruct (x ?= y)%Qc; split; congruence.
Qed.

Lemma truediv_nonzero (x y : float) : y ≠ 0%Qc → truediv x y = Ok (x / y)%Qc.
Proof.
  intros Hy. unfold truediv.
  destruct (float_eqb y 0%Qc) eqn:E; [|done].
  by apply float_eqb_eq in E.
Qed.

Lemma truediv_zero (x : float) :
  truediv x 0%Qc = Raise (ZeroDivisionError "float division by zero").
Proof. reflexivity. Qed.

Lemma py_min_ge_1 (q : float) : (1 ≤ q)%Qc → py_min q 1%Qc = 1%Qc.
Proof.
  intros Hq. unfold py_min.
  destruct (float_ltb 1%Qc q) eqn:E; [done|].
  apply Qcle_antisym; [|done].
  apply Qcnot_lt_le. intros Hlt. apply float_ltb_lt in Hlt. congruence.
Qed.

Lemma py_min_le_1 (q : float) : (q ≤ 1)%Qc → py_min q 1%Qc = q.
Proof.
  intros Hq. unfold py_min.
  destruct (float_ltb 1%Qc q) eqn:E; [|done].
  apply float_ltb_lt in E. by apply Qcle_not_lt in Hq.
Qed.

Lemma div_ge_1 (h t : float) : (0 < t)%Qc → (t ≤ h)%Qc → (1 ≤ h / t)%Qc.
Proof.
  intros Ht Hle. apply (Qcmult_lt_0_le_reg_r _ _ t); [done|].
  rewrite Qcmult_1_l.
  replace (h / t * t)%Qc with h; [done|].
  field. by apply Qclt_not_eq in Ht.
Qed.

Lemma div_self (t : float) : t ≠ 0%Qc → (t / t)%Qc = 1%Qc.
Proof. intros Ht. by field. Qed.

(** ** One effort *)

Lemma score_nonzero (e : effort) :
  h_target_hours e ≠ 0%Qc → score e = Ok (contribution e).
Proof.
  intros Ht. unfold score, contribution.
  by rewrite truediv_nonzero.
Qed.

Lemma score_zero (e : effort) :
  h_target_hours e = 0%Qc →
  score e = Raise (ZeroDivisionError "float division by zero").
Proof. intros Ht. unfold score. by rewrite Ht. Qed.

Lemma score_Ok_inv (e : effort) (s : float) :
  score e = Ok s → h_target_hours e ≠ 0%Qc ∧ s = contribution e.
Proof.
  intros Hs. destruct (decide (h_target_hours e = 0%Qc)) as [Ht|Ht].
  - rewrite score_zero in Hs; done.
  - rewrite score_nonzero in Hs; [|done]. by inversion Hs.
Qed.

Lemma contribution_capped (e : effort) :
  (0 < h_target_hours e)%Qc → (h_target_hours e ≤ e_hours e)%Qc →
  contribution e = h_weight e.
Proof.
  intros Ht Hle. unfold contribution.
  rewrite py_min_ge_1; [apply Qcmult_1_l|by apply div_ge_1].
Qed.

Lemma contribution_at_target (e : effort) :
  h_target_hours e ≠ 0%Qc → e_hours e = h_target_hours e →
  contribution e = h_weight e.
Proof.
  intros Ht Heq. unfold contribution.
  rewrite Heq, div_self; [|done].
  rewrite py_min_le_1; [apply Qcmult_1_l|apply Qcle_refl].
Qed.

(** ** The scoring loop *)

(** Every row of the raw SQL join carries its date as a [str]. *)
Lemma effort_query_str db sprint_id e :
  e ∈ effort_query db sprint_id → ∃ d, e_date e = as_str d.
Proof.
  unfold effort_query. rewrite list_elem_of_bind.
  intros (r & He & _). apply list_elem_of_fmap in He as (h & -> & _).
  by eexists.
Qed.

Lemma score_effort_str sprint days_count days e d :
  e_date e = as_str d →
  score_effort sprint days_count days e = Raise (TypeError unsupported_sub).
Proof. intros Hd. unfold score_effort, day_index. by rewrite Hd. Qed.

Lemma score_efforts_str sprint days_count efforts days :
  efforts ≠ [] → (∀ e, e ∈ efforts → ∃ d, e_date e = as_str d) →
  score_efforts sprint days_count efforts days = Raise (TypeError unsupported_sub).
Proof.
  intros Hne Hstr. destruct efforts as [|e efforts]; [done|].
  destruct (Hstr e) as [d Hd]; [by left|].
  simpl. by rewrite (score_effort_str _ _ _ _ d).
Qed.

(** ** Sprint retrieval *)

Lemma get_sprint_found db sprint_id sprint :
  fetch_one (λ s, sprints.id s = sprint_id) (sprints_t db) = Some sprint →
  get_sprint db sprint_id =
    except_Exception (
      days ← score_efforts sprint (sprint_days_count sprint)
               (effort_query db sprint_id)
               (replicate (Z.to_nat (sprint_days_count sprint)) None);
      Ok {| r_id := sprints.id sprint;
            r_name := sprints.name sprint;
            r_start_date := sprints.start_date sprint;
            r_end_date := sprints.end_date sprint;
            r_habits := fetch_all (λ h, habits.sprint_id h = sprint_id) (habits_t db);
            r_days := days |}).
Proof. intros Hs. unfold get_sprint. by rewrite Hs. Qed.

Lemma get_sprint_absent db sprint_id :
  fetch_one (λ s, sprints.id s = sprint_id) (sprints_t db) = None →
  get_sprint db sprint_id = Raise (not_found "Sprint not found").
Proof. intros Hs. unfold get_sprint. by rewrite Hs. Qed.

Lemma fetch_one_elem_of {A : Type} (P : A → Prop) `{!∀ x, Decision (P x)}
    (table : list A) (x : A) :
  fetch_one P table = Some x → x ∈ table ∧ P x.
Proof.
  unfold fetch_one. intros Hx. apply head_Some_elem_of in Hx.
  apply list_elem_of_filter in Hx. tauto.
Qed.

Lemma fetch_one_None {A : Type} (P : A → Prop) `{!∀ x, Decision (P x)}
    (table : list A) :
  fetch_one P table = None ↔ ∀ x, x ∈ table → ¬ P x.
Proof.
  unfold fetch_one. rewrite head_None. split.
  - intros Hnil x Hx HP. by eapply filter_nil_not_elem_of.
  - intros Hno. destruct (filter P table) as [|x l] eqn:E; [done|].
    assert (x ∈ filter P table) as Hx by (rewrite E; left).
    apply list_elem_of_filter in Hx as [HP Hx]. by destruct (Hno x).
Qed.

Lemma fetch_one_is_Some {A : Type} (P : A → Prop) `{!∀ x, Decision (P x)}
    (table : list A) (x : A) :
  x ∈ table → P x → is_Some (fetch_one P table).
Proof.
  intros Hx HP. destruct (fetch_one P table) eqn:E; [done|].
  rewrite fetch_one_None in E. by destruct (E x).
Qed.

Lemma elem_of_effort_query db sprint_id e :
  e ∈ effort_query db sprint_id ↔
  ∃ r h, r ∈ effort_logs_t db ∧ h ∈ habits_t db ∧
         effort_logs.habit_id r = habits.id h ∧ habits.sprint_id h = sprint_id ∧
         e = join_row r h.
Proof.
  unfold effort_query. rewrite list_elem_of_bind. split.
  - intros (r & He & Hr). apply list_elem_of_fmap in He as (h & -> & Hh).
    apply list_elem_of_filter in Hh as [[Hid Hsid] Hh]. by exists r, h.
  - intros (r & h & Hr & Hh & Hid & Hsid & ->). exists r. split; [|done].
    apply list_elem_of_fmap. exists h. split; [done|].
    by apply list_elem_of_filter.
Qed.

Lemma effort_query_no_habits db sprint_id :
  fetch_all (λ h, habits.sprint_id h = sprint_id) (habits_t db) = [] →
  effort_query db sprint_id = [].
Proof.
  intros Hnone. destruct (effort_query db sprint_id) as [|e l] eqn:E; [done|].
  assert (e ∈ effort_query db sprint_id) as He by (rewrite E; left).
  apply elem_of_effort_query in He as (r & h & _ & Hh & _ & Hsid & _).
  by destruct (filter_nil_not_elem_of _ _ h Hnone Hsid).
Qed.

Lemma filter_all {A : Type} (P : A → Prop) `{!∀ x, Decision (P x)} (l : list A) :
  Forall P l → filter P l = l.
Proof.
  induction 1 as [|x l HP _ IH]; [done|].
  by rewrite filter_cons_True, IH.
Qed.

Lemma filter_none {A : Type} (P : A → Prop) `{!∀ x, Decision (P x)} (l : list A) :
  Forall (λ x, ¬ P x) l → filter P l = [].
Proof.
  induction 1 as [|x l HP _ IH]; [done|].
  by rewrite filter_cons_False.
Qed.

Lemma effort_query_joined db sprint_id :
  effort_query db sprint_id ≠ [] ↔
  ∃ r h, r ∈ effort_logs_t db ∧ h ∈ habits_t db
         ∧ effort_logs.habit_id r = habits.id h ∧ habits.sprint_id h = sprint_id.
Proof.
  split.
  - intros Hne. destruct (effort_query db sprint_id) as [|e l] eqn:E; [done|].
    assert (e ∈ effort_query db sprint_id) as He by (rewrite E; left).
    apply elem_of_effort_query in He as (r & h & Hr & Hh & Hid & Hsid & _).
    by exists r, h.
  - intros (r & h & Hr & Hh & Hid & Hsid) Hnil.
    assert (join_row r h ∈ effort_query db sprint_id) as He.
    { apply elem_of_effort_query. by exists r, h. }
    rewrite Hnil in He. by apply elem_of_nil in He.
Qed.

Lemma get_sprint_joined db sprint_id sprint :
  fetch_one (λ s, sprints.id s = sprint_id) (sprints_t db) = Some sprint →
  effort_query db sprint_id ≠ [] →
  get_sprint db sprint_id = Raise type_error.
Proof.
  intros Hsprint Hne. rewrite (get_sprint_found _ _ _ Hsprint).
  rewrite score_efforts_str; [done..|]. apply effort_query_str.
Qed.

Lemma get_sprint_unjoined db sprint_id sprint :
  fetch_one (λ s, sprints.id s = sprint_id) (sprints_t db) = Some sprint →
  effort_query db sprint_id = [] →
  get_sprint db sprint_id =
    Ok {| r_id := sprints.id sprint;
          r_name := sprints.name sprint;
          r_start_date := sprints.start_date sprint;
          r_end_date := sprints.end_date sprint;
          r_habits := fetch_all (λ h, habits.sprint_id h = sprint_id) (habits_t db);
          r_days := replicate (Z.to_nat (sprint_days_count sprint)) None |}.
Proof.
  intros Hsprint Hnil. rewrite (get_sprint_found _ _ _ Hsprint). by rewrite Hnil.
Qed.

Lemma get_sprint_Ok_inv db sprint_id sprint resp :
  fetch_one (λ s, sprints.id s = sprint_id) (sprints_t db) = Some sprint →
  get_sprint db sprint_id = Ok resp →
  effort_query db sprint_id = []
  ∧ r_days resp = replicate (Z.to_nat (sprint_days_count sprint)) None.
Proof.
  intros Hsprint Hget.
  destruct (effort_query db sprint_id) as [|e l] eqn:E.
  - rewrite (get_sprint_unjoined _ _ _ Hsprint E) in Hget. by inversion Hget.
  - rewrite (get_sprint_joined _ _ _ Hsprint) in Hget; [done|by rewrite E].
Qed.

Lemma get_sprint_Raise_inv db sprint_id err :
  get_sprint db sprint_id = Raise err →
  err = not_found "Sprint not found" ∨ err = type_error.
Proof.
  intros Hget.
  destruct (fetch_one (λ s, sprints.id s = sprint_id) (sprints_t db))
    as [sprint|] eqn:Hsprint.
  - right. destruct (effort_query db sprint_id) as [|e l] eqn:E.
    + by rewrite (get_sprint_unjoined _ _ _ Hsprint E) in Hget.
    + rewrite (get_sprint_joined _ _ _ Hsprint) in Hget by by rewrite E.
      by inversion Hget.
  - left. rewrite get_sprint_absent in Hget by done. by inversion Hget.
Qed.

Lemma get_daily_efforts_Raise_inv db sprint_id date err :
  get_daily_efforts db sprint_id date = Raise err →
  err = not_found "Sprint not found or has no habits".
Proof.
  unfold get_daily_efforts. intros Hget.
  destruct (fetch_all _ _); simpl in Hget; [by inversion Hget|done].
Qed.

(** ** Daily scores *)

(** C1 (code bug).  The three-day sprint Q1 with its habit Read (weight 50,
    target 2) and one hour logged on its first day: the score of that log
    by [min(hours / target_hours, 1) * weight] is 25, but the retrieval
    raises the [TypeError] of [effort.date - sprint.start_date] before any
    score is computed, and answers with the 500 carrying it. *)
Theorem scenario_retrieval_fails :
  let db := (log_effort 0 (log 1 738886 1) db_Q1).2 in
  effort_query db 1 =
    [ {| e_date := as_str 738886; e_hours := Qc_of_Z 1; e_habit_id := 1;
         h_weight := Qc_of_Z 50; h_target_hours := Qc_of_Z 2 |} ]
  ∧ (∃ s, score {| e_date := as_str 738886; e_hours := Qc_of_Z 1; e_habit_id := 1;
                   h_weight := Qc_of_Z 50; h_target_hours := Qc_of_Z 2 |} = Ok s
          ∧ this s = (25 # 1)%Q)
  ∧ get_sprint db 1 = Raise (HTTPException 500 (str (TypeError unsupported_sub))).
Proof.
  split_and!.
  - reflexivity.
  - eexists. split; reflexivity.
  - reflexivity.
Qed.

(** ** The [days] array *)

(** C2 (amended).  The [days] array of a retrieved sprint has
    [max(0, (end_date - start_date).days + 1)] slots, which is
    [(end_date - start_date).days + 1] unless the sprint ends two days or
    more before it starts, and a slot to which no effort log of the
    sprint's habits contributed (none of them is dated on its day) is the
    unset marker. *)
Theorem days_array_shape (db : Database) (sprint_id : Z) (sprint : sprints.row)
    (resp : SprintResponse) :
  fetch_one (λ s, sprints.id s = sprint_id) (sprints_t db) = Some sprint →
  get_sprint db sprint_id = Ok resp →
  Z.of_nat (length (r_days resp))
    = Z.max 0 (sprints.end_date sprint - sprints.start_date sprint + 1)
  ∧ (sprints.start_date sprint - 1 ≤ sprints.end_date sprint →
       Z.of_nat (length (r_days resp))
         = sprints.end_date sprint - sprints.start_date sprint + 1)
  ∧ ∀ i, (i < length (r_days resp))%nat →
       (∀ r h, r ∈ effort_logs_t db → h ∈ habits_t db →
               effort_logs.habit_id r = habits.id h →
               habits.sprint_id h = sprint_id →
               effort_logs.date r ≠ sprints.start_date sprint + Z.of_nat i) →
       r_days resp !! i = Some None.
Proof.
  intros Hsprint Hget.
  destruct (get_sprint_Ok_inv _ _ _ _ Hsprint Hget) as [_ Hdays].
  rewrite Hdays, length_replicate. unfold sprint_days_count.
  split_and!; [lia..|].
  intros i Hi _. by apply lookup_replicate_2.
Qed.

Lemma days_array_shape_witness :
  ∃ resp, get_sprint db_Q1 1 = Ok resp
          ∧ length (r_days resp) = 3%nat
          ∧ r_days resp !! 1%nat = Some None.
Proof.
  destruct (get_sprint db_Q1 1) as [resp|err] eqn:Hget;
    [|vm_compute in Hget; discriminate].
  destruct (days_array_shape db_Q1 1 sprint_Q1 resp) as (Hlen & _ & Hunset);
    [reflexivity|exact Hget|].
  exists resp. split_and!; [done| |].
  - simpl in Hlen. lia.
  - apply Hunset; [simpl in Hlen; lia|].
    intros r h Hr. vm_compute in Hr. by apply elem_of_nil in Hr.
Defined.

(** C2, as stated, fails: the sprint from 2024-01-10 to 2024-01-05 is
    retrieved with an empty [days] array, whose length is not
    [(end_date - start_date).days + 1 = -4]. *)
Lemma days_array_length_counterexample :
  ∃ resp, get_sprint db_backwards 1 = Ok resp
          ∧ r_days resp = []
          ∧ Z.of_nat (length (r_days resp)) ≠ r_end_date resp - r_start_date resp + 1.
Proof. eexists. split; [reflexivity|]. split; [reflexivity|]. simpl. lia. Qed.


(** ** Failures of the reading endpoints *)

(** C5 (code bug).  The sprint Q1 whose habit Read has a zero target, with
    one hour logged on its second day: the division of that log would raise
    [ZeroDivisionError], but the retrieval raises the [TypeError] of the
    date subtraction first, so the 500 it answers with carries the
    [TypeError], not an arithmetic error. *)
Theorem zero_target_type_error :
  effort_query db_zero_target 1 =
    [ {| e_date := as_str 738887; e_hours := Qc_of_Z 1; e_habit_id := 1;
         h_weight := Qc_of_Z 50; h_target_hours := Qc_of_Z 0 |} ]
  ∧ score {| e_date := as_str 738887; e_hours := Qc_of_Z 1; e_habit_id := 1;
             h_weight := Qc_of_Z 50; h_target_hours := Qc_of_Z 0 |}
    = Raise (ZeroDivisionError "float division by zero")
  ∧ get_sprint db_zero_target 1
    = Raise (HTTPException 500 (str (TypeError unsupported_sub)))
  ∧ get_sprint db_zero_target 1
    ≠ Raise (HTTPException 500 (str (ZeroDivisionError "float division by zero"))).
Proof. split_and!; [reflexivity..|discriminate]. Qed.

(** C8.  Retrieving a sprint whose identity is absent raises the 404
    "Sprint not found" inside the [try], which leaves the endpoint as a 500
    carrying [str] of it; every failure of the two reading endpoints is such
    a 500 carrying [str] of the underlying exception. *)
Theorem absent_sprint_not_found (db : Database) (sprint_id : Z) :
  (∀ s, s ∈ sprints_t db → sprints.id s ≠ sprint_id) →
  get_sprint db sprint_id =
    Raise (HTTPException 500 (str (HTTPException 404 (Text "Sprint not found"))))
  ∧ (∀ db' sprint_id' err, get_sprint db' sprint_id' = Raise err →
       err = HTTPException 500 (str (HTTPException 404 (Text "Sprint not found")))
       ∨ err = HTTPException 500 (str (TypeError unsupported_sub)))
  ∧ (∀ db' sprint_id' date err, get_daily_efforts db' sprint_id' date = Raise err →
       err = HTTPException 500
               (str (HTTPException 404 (Text "Sprint not found or has no habits")))).
Proof.
  intros Habsent. split_and!.
  - apply get_sprint_absent. by apply fetch_one_None.
  - apply get_sprint_Raise_inv.
  - apply get_daily_efforts_Raise_inv.
Qed.

Lemma absent_sprint_not_found_witness :
  get_sprint db_Q1 2 =
    Raise (HTTPException 500 (str (HTTPException 404 (Text "Sprint not found")))).
Proof.
  apply (absent_sprint_not_found db_Q1 2).
  intros s Hs. vm_compute in Hs.
  apply list_elem_of_singleton in Hs. by subst.
Defined.

(** ** A sprint without habits *)

Lemma fetch_all_nil {A : Type} (P : A → Prop) `{!∀ x, Decision (P x)}
    (table : list A) :
  (∀ x, x ∈ table → ¬ P x) → fetch_all P table = [].
Proof. intros Hno. apply filter_none. by apply Forall_forall. Qed.

(** C10 (amended).  A sprint that exists and owns no habit is retrieved with
    an empty habits list and [max(0, (end_date - start_date).days + 1)]
    slots, all unset, while the daily-effort listing of the same sprint
    fails with the 404 "Sprint not found or has no habits". *)
Theorem habitless_sprint (db : Database) (sprint_id : Z) (sprint : sprints.row)
    (date : date) :
  fetch_one (λ s, sprints.id s = sprint_id) (sprints_t db) = Some sprint →
  (∀ h, h ∈ habits_t db → habits.sprint_id h ≠ sprint_id) →
  get_sprint db sprint_id =
    Ok {| r_id := sprints.id sprint;
          r_name := sprints.name sprint;
          r_start_date := sprints.start_date sprint;
          r_end_date := sprints.end_date sprint;
          r_habits := [];
          r_days := replicate
            (Z.to_nat (Z.max 0 (sprints.end_date sprint - sprints.start_date sprint + 1)))
            None |}
  ∧ get_daily_efforts db sprint_id date =
      Raise (HTTPException 500
               (str (HTTPException 404 (Text "Sprint not found or has no habits")))).
Proof.
  intros Hsprint Hnone.
  assert (fetch_all (λ h, habits.sprint_id h = sprint_id) (habits_t db) = [])
    as Hhabits.
  { apply fetch_all_nil. intros h Hh Hsid. by destruct (Hnone h). }
  split.
  - rewrite (get_sprint_found _ _ _ Hsprint).
    rewrite effort_query_no_habits, Hhabits by done. simpl.
    unfold sprint_days_count. do 3 f_equal. lia.
  - unfold get_daily_efforts. by rewrite Hhabits.
Qed.

Lemma habitless_sprint_witness :
  days_of (get_sprint db_habitless 1) = Some [None; None; None]
  ∧ get_daily_efforts db_habitless 1 738886 =
      Raise (HTTPException 500
               (str (HTTPException 404 (Text "Sprint not found or has no habits")))).
Proof.
  destruct (habitless_sprint db_habitless 1
              {| sprints.id := 1; sprints.name := "Idle";
                 sprints.start_date := 738886; sprints.end_date := 738888;
                 sprints.created_at := 0 |} 738886) as [Hget Hdaily].
  - reflexivity.
  - intros h Hh. vm_compute in Hh. by apply elem_of_nil in Hh.
  - split; [by rewrite Hget|exact Hdaily].
Defined.

(** C10, as stated, fails: the habit-less sprint from 2024-01-10 to
    2024-01-05 is retrieved with no slot at all, not with
    [(end_date - start_date).days + 1 = -4] of them. *)
Lemma habitless_sprint_counterexample :
  habits_t db_backwards = []
  ∧ ∃ resp, get_sprint db_backwards 1 = Ok resp
            ∧ r_habits resp = []
            ∧ r_days resp = []
            ∧ Z.of_nat (length (r_days resp)) ≠ r_end_date resp - r_start_date resp + 1.
Proof.
  split; [reflexivity|]. eexists.
  split; [reflexivity|]. split_and!; [reflexivity..|]. simpl. lia.
Qed.

(** ** Daily effort listing *)

(** C7.  The listing of a sprint no habit belongs to fails with the 404
    "Sprint not found or has no habits"; otherwise it has one entry per
    habit of the sprint and no other, in the order of the habits table,
    with the habit's identity and name, and with the hours of the habit's
    first effort log of that date, or the number 0 when it has none. *)
Theorem daily_efforts_listing (db : Database) (sprint_id : Z) (date : date) :
  ((∀ h, h ∈ habits_t db → habits.sprint_id h ≠ sprint_id) →
     get_daily_efforts db sprint_id date =
       Raise (HTTPException 500
                (str (HTTPException 404 (Text "Sprint not found or has no habits")))))
  ∧ (∀ habit0, habit0 ∈ habits_t db → habits.sprint_id habit0 = sprint_id →
     ∃ efforts,
       get_daily_efforts db sprint_id date = Ok efforts
       ∧ habit_id <$> efforts
         = habits.id <$> filter (λ h, habits.sprint_id h = sprint_id) (habits_t db)
       ∧ ∀ i habit,
           filter (λ h, habits.sprint_id h = sprint_id) (habits_t db) !! i = Some habit →
           ∃ entry, efforts !! i = Some entry
             ∧ habit_id entry = habits.id habit
             ∧ habit_name entry = habits.name habit
             ∧ (∀ r, head (filter (λ r, effort_logs.habit_id r = habits.id habit
                                        ∧ effort_logs.date r = date)
                                  (effort_logs_t db)) = Some r →
                     hours entry = effort_logs.hours r)
             ∧ ((∀ r, r ∈ effort_logs_t db →
                      ¬ (effort_logs.habit_id r = habits.id habit
                         ∧ effort_logs.date r = date)) →
                hours entry = 0%Qc)).
Proof.
  unfold get_daily_efforts, fetch_all. split.
  - intros Hnone. rewrite filter_none; [done|]. by apply Forall_forall.
  - intros habit0 Hin Hsid.
    exists (daily_effort db date
              <$> filter (λ h, habits.sprint_id h = sprint_id) (habits_t db)).
    split_and!.
    + destruct (filter (λ h, habits.sprint_id h = sprint_id) (habits_t db))
        as [|h hs] eqn:E; [|done].
      by destruct (filter_nil_not_elem_of _ _ habit0 E Hsid).
    + rewrite <- list_fmap_compose. by apply list_fmap_ext.
    + intros i habit Hi. exists (daily_effort db date habit).
      rewrite list_lookup_fmap, Hi. split_and!; [done..| |].
      * intros r Hr. unfold daily_effort, fetch_one. simpl. by rewrite Hr.
      * intros Hno. unfold daily_effort. simpl.
        by rewrite (proj2 (fetch_one_None _ (effort_logs_t db)) Hno).
Qed.

Lemma daily_efforts_listing_witness :
  (∃ efforts, get_daily_efforts db_two_sprints 1 738886 = Ok efforts
              ∧ (λ e, (habit_id e, habit_name e, this (hours e))) <$> efforts
                = [(1, "Read", (3 # 1)%Q); (2, "Run", (0 # 1)%Q)])
  ∧ get_daily_efforts db_two_sprints 7 738886 =
      Raise (HTTPException 500
               (str (HTTPException 404 (Text "Sprint not found or has no habits")))).
Proof.
  split.
  - destruct (daily_efforts_listing db_two_sprints 1 738886) as [_ Hsome].
    destruct (Hsome {| habits.id := 1; habits.sprint_id := 1; habits.name := "Read";
                       habits.weight := Qc_of_Z 50;
                       habits.target_hours := Qc_of_Z 2 |})
      as (efforts & Hget & _); [vm_compute; left|reflexivity|].
    exists efforts. split; [exact Hget|].
    vm_compute in Hget. injection Hget as <-. reflexivity.
  - destruct (daily_efforts_listing db_two_sprints 7 738886) as [Hnone _].
    apply Hnone. intros h Hh. apply list_elem_of_In in Hh. vm_compute in Hh.
    destruct Hh as [<-|[<-|[<-|[]]]]; simpl; lia.
Defined.

(** ** Effort upsert *)

Lemma Database_eta (db : Database) :
  {| sprints_t := sprints_t db; habits_t := habits_t db;
     effort_logs_t := effort_logs_t db |} = db.
Proof. by destruct db. Qed.

Lemma set_hours_same (r : effort_logs.row) : set_hours (effort_logs.hours r) r = r.
Proof. by destruct r. Qed.

Lemma fetch_one_rows_for e table :
  fetch_one (same_key e) table = head (rows_for (ec_habit_id e) (ec_date e) table).
Proof. reflexivity. Qed.

Lemma next_id_fresh (ids : list Z) (x : Z) : x ∈ ids → x < next_id ids.
Proof.
  unfold next_id. induction ids as [|y ids IH]; intros Hx.
  - by apply elem_of_nil in Hx.
  - simpl. apply elem_of_cons in Hx as [->|Hx]; [lia|]. apply IH in Hx. lia.
Qed.

Lemma next_id_pos (ids : list Z) : 0 < next_id ids.
Proof. unfold next_id. induction ids as [|y ids IH]; simpl; lia. Qed.

Lemma next_id_snoc (ids : list Z) : next_id (ids ++ [next_id ids]) = next_id ids + 1.
Proof.
  assert (∀ x, 0 ≤ x → foldr Z.max 0 (ids ++ [x]) = Z.max (foldr Z.max 0 ids) x)
    as Hmax.
  { intros x Hx. induction ids as [|y ids IH]; simpl; lia. }
  pose proof (next_id_pos ids) as Hpos.
  unfold next_id in *. rewrite Hmax by lia. lia.
Qed.

Lemma rows_for_update habit_id date e table :
  rows_for habit_id date (update_hours e table) =
  update_hours e (rows_for habit_id date table).
Proof.
  unfold rows_for, update_hours.
  set (f := λ r, if decide (same_key e r) then set_hours (ec_hours e) r else r).
  set (P := λ r, effort_logs.habit_id r = habit_id ∧ effort_logs.date r = date).
  assert (∀ r, P (f r) ↔ P r) as Hkey.
  { intros r. unfold f, P. by destruct (decide (same_key e r)). }
  induction table as [|r table IH]; [done|].
  rewrite fmap_cons, (filter_cons P (f r)), (filter_cons P r), IH.
  destruct (decide (P (f r))) as [HP|HP], (decide (P r)) as [HP'|HP'];
    [done|destruct HP'; by apply Hkey|destruct HP; by apply Hkey|done].
Qed.

Lemma update_hours_id e table :
  (∀ r, r ∈ table → same_key e r → effort_logs.hours r = ec_hours e) →
  update_hours e table = table.
Proof.
  unfold update_hours. induction table as [|r table IH]; intros Hall; [done|].
  rewrite fmap_cons, IH by (intros r' Hr'; apply Hall; by right).
  destruct (decide (same_key e r)) as [Hkey|Hkey]; [|done].
  rewrite <- (Hall r) by (done || left). by rewrite set_hours_same.
Qed.

Lemma length_le_1_singleton {A : Type} (x : A) (l : list A) :
  (length (x :: l) ≤ 1)%nat → l = [].
Proof. destruct l; simpl; [done|lia]. Qed.

Lemma log_effort_unique now e db :
  unique_effort db → unique_effort (log_effort now e db).2.
Proof.
  intros Huniq habit_id date. unfold log_effort.
  destruct (fetch_one (same_key e) (effort_logs_t db)) as [r0|] eqn:Hfetch; simpl.
  - rewrite rows_for_update. unfold update_hours. rewrite length_fmap. apply Huniq.
  - unfold rows_for. rewrite filter_app, length_app, filter_cons, filter_nil. simpl.
    case_decide as Hkey.
    + destruct Hkey as [<- <-].
      rewrite fetch_one_rows_for in Hfetch. apply head_None in Hfetch.
      unfold rows_for in Hfetch. by rewrite Hfetch.
    + simpl. specialize (Huniq habit_id date). unfold rows_for in Huniq. lia.
Qed.

Lemma log_effort_row now e db :
  unique_effort db →
  ∃ r, rows_for (ec_habit_id e) (ec_date e) (effort_logs_t (log_effort now e db).2) = [r]
       ∧ effort_logs.hours r = ec_hours e.
Proof.
  intros Huniq. unfold log_effort.
  destruct (fetch_one (same_key e) (effort_logs_t db)) as [r0|] eqn:Hfetch; simpl.
  - rewrite fetch_one_rows_for in Hfetch.
    pose proof (head_Some_elem_of _ _ Hfetch) as Hkey.
    apply list_elem_of_filter in Hkey as [Hkey _].
    apply head_Some in Hfetch as [l Hrows].
    pose proof (Huniq (ec_habit_id e) (ec_date e)) as Hlen.
    rewrite Hrows in Hlen. apply length_le_1_singleton in Hlen. subst l.
    exists (set_hours (ec_hours e) r0). split; [|done].
    rewrite rows_for_update, Hrows. unfold update_hours. simpl.
    by rewrite decide_True.
  - rewrite fetch_one_rows_for in Hfetch. apply head_None in Hfetch.
    eexists. split.
    { unfold rows_for in *. by rewrite filter_app, Hfetch, filter_cons_True. }
    done.
Qed.

Lemma log_effort_again now1 now2 e db :
  unique_effort db →
  (log_effort now2 e (log_effort now1 e db).2).2 = (log_effort now1 e db).2.
Proof.
  intros Huniq.
  destruct (log_effort_row now1 e db Huniq) as (r & Hrows & Hhours).
  set (db1 := (log_effort now1 e db).2) in *.
  unfold log_effort at 1. rewrite fetch_one_rows_for, Hrows. simpl.
  rewrite update_hours_id; [apply Database_eta|].
  intros r' Hr' Hkey.
  assert (r' ∈ rows_for (ec_habit_id e) (ec_date e) (effort_logs_t db1)) as Hin.
  { by apply list_elem_of_filter. }
  rewrite Hrows in Hin. apply list_elem_of_singleton in Hin. by subst.
Qed.

Lemma rows_for_filter_length habit_id date (Q : effort_logs.row → Prop)
    `{!∀ r, Decision (Q r)} table :
  (length (rows_for habit_id date (filter Q table))
   ≤ length (rows_for habit_id date table))%nat.
Proof.
  unfold rows_for. induction table as [|r table IH]; [done|].
  rewrite (filter_cons Q). destruct (decide (Q r)).
  - rewrite !filter_cons. case_decide; simpl; lia.
  - rewrite filter_cons. case_decide; simpl; lia.
Qed.

Lemma delete_sprint_efforts_unique sprint_id db :
  unique_effort db → unique_effort (delete_sprint_efforts sprint_id db).
Proof.
  unfold delete_sprint_efforts.
  generalize (fetch_all (λ h, habits.sprint_id h = sprint_id) (habits_t db)).
  intros hs. revert db. induction hs as [|h hs IH]; intros db Huniq; [done|].
  simpl. apply IH. intros habit_id date. simpl.
  etrans; [apply rows_for_filter_length|apply Huniq].
Qed.

(** X2.  In every store the service can be in, there is at most one effort
    log per (habit, date): no sequence of requests creates a duplicate. *)
Lemma reachable_unique_effort db : reachable db → unique_effort db.
Proof.
  induction 1 as [|now sprint db _ IH|now e db _ IH|sprint_id db _ IH].
  - intros habit_id date. simpl. lia.
  - exact IH.
  - by apply log_effort_unique.
  - by apply (delete_sprint_efforts_unique sprint_id) in IH.
Qed.

(** C3.  In a store with at most one effort log per (habit, date), an upsert
    leaves at most one per pair; upserting the same (habit, date, hours)
    twice leaves the store as the first upsert made it, with exactly one
    row for the pair, holding those hours; and an upsert followed by one of
    other hours for the same pair leaves exactly one row, holding the later
    hours. *)
Theorem effort_upsert_unique (db : Database) :
  unique_effort db →
  (∀ now e, unique_effort (log_effort now e db).2)
  ∧ (∀ now1 now2 e,
       let db1 := (log_effort now1 e db).2 in
       let db2 := (log_effort now2 e db1).2 in
       db2 = db1
       ∧ ∃ r, rows_for (ec_habit_id e) (ec_date e) (effort_logs_t db2) = [r]
              ∧ effort_logs.hours r = ec_hours e)
  ∧ (∀ now1 now2 e1 e2,
       ec_habit_id e1 = ec_habit_id e2 → ec_date e1 = ec_date e2 →
       let db2 := (log_effort now2 e2 (log_effort now1 e1 db).2).2 in
       unique_effort db2
       ∧ ∃ r, rows_for (ec_habit_id e2) (ec_date e2) (effort_logs_t db2) = [r]
              ∧ effort_logs.hours r = ec_hours e2).
Proof.
  intros Huniq. split_and!.
  - intros now e. by apply log_effort_unique.
  - intros now1 now2 e db1 db2. unfold db2, db1.
    rewrite log_effort_again by done. split; [done|].
    by apply log_effort_row.
  - intros now1 now2 e1 e2 _ _ db2. unfold db2. split.
    + by do 2 apply log_effort_unique.
    + apply log_effort_row. by apply log_effort_unique.
Qed.

Lemma effort_upsert_unique_witness :
  ∃ r, rows_for 1 738886
         (effort_logs_t (log_effort 8 (log 1 738886 5)
                           (log_effort 7 (log 1 738886 3) db_Q1).2).2) = [r]
       ∧ effort_logs.hours r = Qc_of_Z 5.
Proof.
  destruct (effort_upsert_unique db_Q1) as (_ & _ & Hover).
  - intros habit_id date. simpl. lia.
  - by destruct (Hover 7 8 (log 1 738886 3) (log 1 738886 5)) as [_ Hrow].
Defined.

(** C4.  When an effort log of (habit_id, date) is stored, the upsert
    answers with the message "Effort updated successfully" and rewrites the
    hours of the rows of that pair, every row keeping its place, identity,
    habit, date and creation timestamp; when none is stored, it appends a
    row with a fresh identity and answers with that identity.  Every
    request is accepted, whatever its hours and whether or not its habit
    exists. *)
Theorem effort_upsert_cases (now : datetime) (e : EffortCreate) (db : Database) :
  let table := effort_logs_t db in
  let table' := effort_logs_t (log_effort now e db).2 in
  sprints_t (log_effort now e db).2 = sprints_t db
  ∧ habits_t (log_effort now e db).2 = habits_t db
  ∧ (∃ resp, (log_effort now e db).1 = Ok resp)
  ∧ ((∃ r0, r0 ∈ table ∧ effort_logs.habit_id r0 = ec_habit_id e
                       ∧ effort_logs.date r0 = ec_date e) →
       (log_effort now e db).1 = Ok (Message "Effort updated successfully")
       ∧ length table' = length table
       ∧ ∀ i r, table !! i = Some r →
           ∃ r', table' !! i = Some r'
             ∧ effort_logs.id r' = effort_logs.id r
             ∧ effort_logs.created_at r' = effort_logs.created_at r
             ∧ effort_logs.habit_id r' = effort_logs.habit_id r
             ∧ effort_logs.date r' = effort_logs.date r
             ∧ effort_logs.hours r' =
                 if decide (effort_logs.habit_id r = ec_habit_id e
                            ∧ effort_logs.date r = ec_date e)
                 then ec_hours e else effort_logs.hours r)
  ∧ ((∀ r, r ∈ table → ¬ (effort_logs.habit_id r = ec_habit_id e
                           ∧ effort_logs.date r = ec_date e)) →
       ∃ effort_id,
         (log_effort now e db).1 = Ok (EffortId effort_id)
         ∧ (∀ r, r ∈ table → effort_logs.id r ≠ effort_id)
         ∧ table' = table ++
             [ {| effort_logs.id := effort_id;
                  effort_logs.habit_id := ec_habit_id e;
                  effort_logs.date := ec_date e;
                  effort_logs.hours := ec_hours e;
                  effort_logs.created_at := now |} ]).
Proof.
  intros table table'. unfold table', table.
  split_and!.
  - unfold log_effort. by destruct (fetch_one _ _).
  - unfold log_effort. by destruct (fetch_one _ _).
  - unfold log_effort. destruct (fetch_one _ _); simpl; eauto.
  - intros (r0 & Hr0 & Hh & Hd).
    destruct (fetch_one_is_Some (same_key e) (effort_logs_t db) r0 Hr0)
      as [r1 Hfetch]; [done|].
    unfold log_effort. rewrite Hfetch. simpl. split_and!; [done| |].
    + unfold update_hours. by rewrite length_fmap.
    + intros i r Hi. unfold update_hours. rewrite list_lookup_fmap, Hi. simpl.
      eexists. split; [done|].
      unfold same_key. by case_decide.
  - intros Hnone.
    assert (fetch_one (same_key e) (effort_logs_t db) = None) as Hfetch.
    { by apply fetch_one_None. }
    unfold log_effort. rewrite Hfetch. simpl.
    eexists. split_and!; [done| |done].
    intros r Hr Heq.
    assert (effort_logs.id r ∈ effort_logs.id <$> effort_logs_t db) as Hid.
    { by apply list_elem_of_fmap_2. }
    apply next_id_fresh in Hid. lia.
Qed.

Lemma effort_upsert_cases_witness :
  ((log_effort 9 (log 1 738886 5) db_Q1_logged).1
     = Ok (Message "Effort updated successfully")
   ∧ ∃ r', effort_logs_t (log_effort 9 (log 1 738886 5) db_Q1_logged).2 !! 0%nat
             = Some r'
           ∧ effort_logs.id r' = 1
           ∧ effort_logs.created_at r' = 0
           ∧ effort_logs.hours r' = Qc_of_Z 5)
  ∧ ∃ effort_id,
      (log_effort 9 {| ec_habit_id := 42; ec_date := 738886;
                       ec_hours := Qc_of_Z (-3) |} db_Q1).1 = Ok (EffortId effort_id).
Proof.
  split.
  - destruct (effort_upsert_cases 9 (log 1 738886 5) db_Q1_logged)
      as (_ & _ & _ & Hupdate & _).
    destruct Hupdate as (Hresp & _ & Hrows).
    { exists {| effort_logs.id := 1; effort_logs.habit_id := 1;
                effort_logs.date := 738886; effort_logs.hours := Qc_of_Z 1;
                effort_logs.created_at := 0 |}.
      split; [vm_compute; left|split; reflexivity]. }
    split; [exact Hresp|].
    destruct (Hrows 0%nat
                {| effort_logs.id := 1; effort_logs.habit_id := 1;
                   effort_logs.date := 738886; effort_logs.hours := Qc_of_Z 1;
                   effort_logs.created_at := 0 |})
      as (r' & Hr' & Hid & Hcreated & _ & _ & Hhours); [reflexivity|].
    exists r'. split_and!; [done..|].
    rewrite Hhours. by rewrite decide_True.
  - destruct (effort_upsert_cases 9
                {| ec_habit_id := 42; ec_date := 738886; ec_hours := Qc_of_Z (-3) |}
                db_Q1) as (_ & _ & _ & _ & Hinsert).
    destruct Hinsert as (effort_id & Hresp & _).
    + intros r Hr. vm_compute in Hr. by apply elem_of_nil in Hr.
    + by exists effort_id.
Defined.

(** ** Sprint creation *)

Lemma create_habits_spec sprint_id specs hs m :
  foldl (create_habit sprint_id) (hs, m) specs =
    let rows := imap (new_habit sprint_id (next_id (habits.id <$> hs))) specs in
    (hs ++ rows, record_ids m rows).
Proof.
  revert hs m. induction specs as [|spec specs IH]; intros hs m.
  - simpl. by rewrite app_nil_r.
  - simpl. unfold create_habit at 2. simpl. rewrite IH. simpl.
    rewrite fmap_app. simpl. rewrite next_id_snoc.
    assert (imap (new_habit sprint_id (next_id (habits.id <$> hs) + 1)) specs
            = imap (new_habit sprint_id (next_id (habits.id <$> hs)) ∘ S) specs)
      as ->.
    { apply imap_ext. intros i x _. unfold new_habit. simpl. f_equal. lia. }
    replace (new_habit sprint_id (next_id (habits.id <$> hs)) 0 spec)
      with (habits.Row (next_id (habits.id <$> hs)) sprint_id (hc_name spec)
              (hc_weight spec) (hc_target_hours spec))
      by (unfold new_habit; f_equal; simpl; lia).
    change (Z.of_nat 0) with 0. rewrite Z.add_0_r.
    by rewrite <- app_assoc.
Qed.

Lemma record_ids_lookup m rows name :
  record_ids m rows !! name =
    match last (filter (λ h, habits.name h = name) rows) with
    | Some h => Some (habits.id h)
    | None => m !! name
    end.
Proof.
  unfold record_ids. revert m. induction rows as [|h rows IH]; intros m; [done|].
  simpl. rewrite IH, filter_cons.
  destruct (decide (habits.name h = name)) as [<-|Hne].
  - rewrite last_cons.
    destruct (last (filter _ rows)); [done|]. by rewrite lookup_insert_eq.
  - destruct (last (filter _ rows)); [done|]. by rewrite lookup_insert_ne.
Qed.

Lemma create_sprint_tables now sprint db :
  let sprint_id := next_id (sprints.id <$> sprints_t db) in
  let rows := imap (new_habit sprint_id (next_id (habits.id <$> habits_t db)))
                   (sc_habits sprint) in
  create_sprint now sprint db =
    (Ok {| c_sprint_id := sprint_id; c_habit_ids := record_ids ∅ rows |},
     {| sprints_t := sprints_t db ++
          [ {| sprints.id := sprint_id;
               sprints.name := sc_name sprint;
               sprints.start_date := sc_start_date sprint;
               sprints.end_date := sc_end_date sprint;
               sprints.created_at := now |} ];
        habits_t := habits_t db ++ rows;
        effort_logs_t := effort_logs_t db |}).
Proof. unfold create_sprint. by rewrite create_habits_spec. Qed.

(** C9.  Creation stores one sprint row with the submitted name and dates
    and, after the habits already stored, one habit row per submitted habit,
    in order, with the submitted name, weight and target and with
    consecutive fresh identities; nothing is validated, so every request is
    answered.  The answer carries the sprint's identity and a mapping that
    sends a name to the identity of the last submitted habit of that name
    (and has no other entry). *)
Theorem create_sprint_persists (now : datetime) (sprint : SprintCreate) (db : Database) :
  let sprint_id := next_id (sprints.id <$> sprints_t db) in
  let first := next_id (habits.id <$> habits_t db) in
  let rows := imap (new_habit sprint_id first) (sc_habits sprint) in
  ∃ habit_ids,
    create_sprint now sprint db =
      (Ok {| c_sprint_id := sprint_id; c_habit_ids := habit_ids |},
       {| sprints_t := sprints_t db ++
            [ {| sprints.id := sprint_id;
                 sprints.name := sc_name sprint;
                 sprints.start_date := sc_start_date sprint;
                 sprints.end_date := sc_end_date sprint;
                 sprints.created_at := now |} ];
          habits_t := habits_t db ++ rows;
          effort_logs_t := effort_logs_t db |})
    ∧ length rows = length (sc_habits sprint)
    ∧ (∀ i habit, sc_habits sprint !! i = Some habit →
         rows !! i = Some {| habits.id := first + Z.of_nat i;
                             habits.sprint_id := sprint_id;
                             habits.name := hc_name habit;
                             habits.weight := hc_weight habit;
                             habits.target_hours := hc_target_hours habit |})
    ∧ (∀ s, s ∈ sprints_t db → sprints.id s < sprint_id)
    ∧ (∀ h, h ∈ habits_t db → habits.id h < first)
    ∧ (∀ name, habit_ids !! name =
         habits.id <$> last (filter (λ h, habits.name h = name) rows)).
Proof.
  intros sprint_id first rows. exists (record_ids ∅ rows).
  split_and!.
  - apply create_sprint_tables.
  - unfold rows. by rewrite length_imap.
  - intros i habit Hi. unfold rows. by rewrite list_lookup_imap, Hi.
  - intros s Hs. apply next_id_fresh. by apply list_elem_of_fmap_2.
  - intros h Hh. apply next_id_fresh. by apply list_elem_of_fmap_2.
  - intros name. rewrite record_ids_lookup.
    by destruct (last (filter _ rows)).
Qed.

Lemma create_sprint_persists_witness :
  ∃ habit_ids db',
    create_sprint 0 twice_Read empty_db
      = (Ok {| c_sprint_id := 1; c_habit_ids := habit_ids |}, db')
    ∧ habit_ids !! "Read" = Some 2
    ∧ habits.id <$> habits_t db' = [1; 2].
Proof.
  destruct (create_sprint_persists 0 twice_Read empty_db)
    as (habit_ids & Hcreate & _ & _ & _ & _ & Hids).
  eexists habit_ids, _. split; [exact Hcreate|]. split.
  - rewrite Hids. reflexivity.
  - reflexivity.
Defined.

(** ** Sprint deletion *)

Lemma delete_sprint_efforts_tables sprint_id db :
  sprints_t (delete_sprint_efforts sprint_id db) = sprints_t db
  ∧ habits_t (delete_sprint_efforts sprint_id db) = habits_t db
  ∧ ∀ r, r ∈ effort_logs_t (delete_sprint_efforts sprint_id db) ↔
         r ∈ effort_logs_t db
         ∧ ∀ h, h ∈ habits_t db → habits.sprint_id h = sprint_id →
                effort_logs.habit_id r ≠ habits.id h.
Proof.
  unfold delete_sprint_efforts.
  assert (∀ hs db0,
    sprints_t (foldl delete_effort_logs db0 hs) = sprints_t db0
    ∧ habits_t (foldl delete_effort_logs db0 hs) = habits_t db0
    ∧ ∀ r, r ∈ effort_logs_t (foldl delete_effort_logs db0 hs) ↔
           r ∈ effort_logs_t db0
           ∧ ∀ h, h ∈ hs → effort_logs.habit_id r ≠ habits.id h) as Hfold.
  { induction hs as [|h hs IH]; intros db0.
    - simpl. split_and!; [done..|]. intros r. split; [|tauto].
      intros Hr. split; [done|]. intros h Hh. by apply elem_of_nil in Hh.
    - simpl. destruct (IH (delete_effort_logs db0 h)) as (Hs & Hh & Hr).
      split_and!; [by rewrite Hs|by rewrite Hh|].
      intros r. rewrite Hr. simpl. rewrite list_elem_of_filter. split.
      + intros [[Hne Hin] Hrest]. split; [done|].
        intros h' Hh'. apply elem_of_cons in Hh' as [->|Hh']; [done|by apply Hrest].
      + intros [Hin Hall]. split; [split; [|done]|].
        * apply Hall. by left.
        * intros h' Hh'. apply Hall. by right. }
  destruct (Hfold (fetch_all (λ h, habits.sprint_id h = sprint_id) (habits_t db)) db)
    as (Hs & Hh & Hr).
  split_and!; [done..|].
  intros r. rewrite Hr. unfold fetch_all. split; intros [Hin Hall]; (split; [done|]).
  - intros h Hh' Hsid. apply Hall. by apply list_elem_of_filter.
  - intros h Hh'. apply list_elem_of_filter in Hh' as [Hsid Hh']. by apply Hall.
Qed.

Lemma create_sprint_habits_owned now sprint db :
  habits_owned db → habits_owned (create_sprint now sprint db).2.
Proof.
  intros Howned h Hh. rewrite create_sprint_tables in Hh. simpl in Hh.
  rewrite create_sprint_tables. simpl.
  apply elem_of_app in Hh as [Hh|Hh].
  - destruct (Howned h Hh) as (s & Hs & Hid). exists s.
    split; [|done]. apply elem_of_app. by left.
  - eexists. split; [apply elem_of_app; right; by left|].
    apply list_elem_of_lookup in Hh as [i Hi].
    rewrite list_lookup_imap in Hi.
    destruct (sc_habits sprint !! i); simpl in Hi; [|done].
    by inversion Hi.
Qed.

Lemma log_effort_tables now e db :
  sprints_t (log_effort now e db).2 = sprints_t db
  ∧ habits_t (log_effort now e db).2 = habits_t db.
Proof. unfold log_effort. by destruct (fetch_one _ _). Qed.

Lemma delete_sprint_habits_owned sprint_id db :
  habits_owned db → habits_owned (delete_sprint sprint_id db).2.
Proof.
  intros Howned h Hh. simpl in Hh |- *.
  destruct (delete_sprint_efforts_tables sprint_id db) as (Hs & Hhabits & _).
  rewrite Hhabits in Hh. rewrite Hs.
  apply list_elem_of_filter in Hh as [Hsid Hh].
  destruct (Howned h Hh) as (s & Hin & Hid). exists s. split; [|done].
  apply list_elem_of_filter. split; [congruence|done].
Qed.

Lemma reachable_habits_owned db : reachable db → habits_owned db.
Proof.
  induction 1 as [|now sprint db _ IH|now e db _ IH|sprint_id db _ IH].
  - intros h Hh. by apply elem_of_nil in Hh.
  - by apply create_sprint_habits_owned.
  - intros h Hh. destruct (log_effort_tables now e db) as [Hs Hhabits].
    rewrite Hhabits in Hh. rewrite Hs. by apply IH.
  - by apply delete_sprint_habits_owned.
Qed.

Lemma delete_sprint_absent sprint_id db :
  habits_owned db →
  (∀ s, s ∈ sprints_t db → sprints.id s ≠ sprint_id) →
  (delete_sprint sprint_id db).2 = db.
Proof.
  intros Howned Habsent.
  assert (∀ h, h ∈ habits_t db → habits.sprint_id h ≠ sprint_id) as Hnone.
  { intros h Hh Hsid. destruct (Howned h Hh) as (s & Hs & Hid).
    apply (Habsent s Hs). congruence. }
  unfold delete_sprint, delete_sprint_efforts. simpl.
  rewrite fetch_all_nil by (intros h Hh Hsid; by apply (Hnone h)).
  unfold delete_sprints, delete_habits. simpl.
  rewrite !filter_all by by apply Forall_forall.
  apply Database_eta.
Qed.

(** C6.  Deletion answers "Sprint deleted successfully" and runs three
    deletions in order: first the effort logs of every habit of the sprint
    (habits and sprints still untouched), then the habits of the sprint,
    then the sprint.  Afterwards exactly these rows are gone, and both
    reading endpoints answer the sprint's identity with their 404.  In a
    store the service can be in, deleting an identity that no sprint has
    leaves the store as it was, with the same answer. *)
Theorem cascade_delete (db : Database) (sprint_id : Z) :
  let db1 := delete_sprint_efforts sprint_id db in
  let db2 := delete_habits sprint_id db1 in
  let db3 := delete_sprints sprint_id db2 in
  delete_sprint sprint_id db = (Ok (Message "Sprint deleted successfully"), db3)
  ∧ (sprints_t db1 = sprints_t db
     ∧ habits_t db1 = habits_t db
     ∧ ∀ r, r ∈ effort_logs_t db1 ↔
            r ∈ effort_logs_t db
            ∧ ∀ h, h ∈ habits_t db → habits.sprint_id h = sprint_id →
                   effort_logs.habit_id r ≠ habits.id h)
  ∧ (sprints_t db2 = sprints_t db
     ∧ effort_logs_t db2 = effort_logs_t db1
     ∧ ∀ h, h ∈ habits_t db2 ↔ h ∈ habits_t db ∧ habits.sprint_id h ≠ sprint_id)
  ∧ (habits_t db3 = habits_t db2
     ∧ effort_logs_t db3 = effort_logs_t db1
     ∧ ∀ s, s ∈ sprints_t db3 ↔ s ∈ sprints_t db ∧ sprints.id s ≠ sprint_id)
  ∧ get_sprint db3 sprint_id =
      Raise (HTTPException 500 (str (HTTPException 404 (Text "Sprint not found"))))
  ∧ (∀ date, get_daily_efforts db3 sprint_id date =
       Raise (HTTPException 500
                (str (HTTPException 404 (Text "Sprint not found or has no habits")))))
  ∧ (reachable db →
     (∀ s, s ∈ sprints_t db → sprints.id s ≠ sprint_id) →
     db3 = db).
Proof.
  intros db1 db2 db3.
  destruct (delete_sprint_efforts_tables sprint_id db) as (Hs1 & Hh1 & Hr1).
  fold db1 in Hs1, Hh1, Hr1.
  assert (∀ h, h ∈ habits_t db2 ↔ h ∈ habits_t db ∧ habits.sprint_id h ≠ sprint_id)
    as Hh2.
  { intros h. unfold db2. simpl. rewrite list_elem_of_filter, Hh1. tauto. }
  assert (∀ s, s ∈ sprints_t db3 ↔ s ∈ sprints_t db ∧ sprints.id s ≠ sprint_id)
    as Hs3.
  { intros s. unfold db3, db2. simpl. rewrite list_elem_of_filter, Hs1. tauto. }
  split_and!; try done.
  - apply get_sprint_absent, fetch_one_None.
    intros s Hs Hid. apply Hs3 in Hs. tauto.
  - intros date. unfold get_daily_efforts.
    rewrite fetch_all_nil; [done|].
    intros h Hh Hsid. change (habits_t db3) with (habits_t db2) in Hh.
    apply Hh2 in Hh. tauto.
  - intros Hreach Habsent.
    apply (delete_sprint_absent sprint_id db); [|done].
    by apply reachable_habits_owned.
Qed.

Lemma cascade_delete_witness :
  (delete_sprint 1 db_Q1_logged).2 = empty_db
  ∧ (delete_sprint 7 db_Q1_logged).2 = db_Q1_logged.
Proof.
  split; [reflexivity|].
  destruct (cascade_delete db_Q1_logged 7) as (_ & _ & _ & _ & _ & _ & Hnoop).
  apply Hnoop.
  - unfold db_Q1_logged, db_Q1. repeat constructor.
  - intros s Hs. vm_compute in Hs. apply list_elem_of_singleton in Hs. by subst.
Defined.

(** * Further properties of the endpoints *)

(** ** Bounds of a score *)







(** ** Invariants of the store *)

Lemma NoDup_snoc_next_id (ids : list Z) : NoDup ids → NoDup (ids ++ [next_id ids]).
Proof.
  intros Hids. apply NoDup_app. split_and!; [done| |apply NoDup_singleton].
  intros x Hx Hnew. apply list_elem_of_singleton in Hnew.
  apply next_id_fresh in Hx. lia.
Qed.

Lemma NoDup_fmap_filter {A B : Type} (f : A → B) (P : A → Prop)
    `{!∀ x, Decision (P x)} (l : list A) :
  NoDup (f <$> l) → NoDup (f <$> filter P l).
Proof.
  intros Hl. eapply sublist_NoDup; [exact Hl|].
  apply fmap_sublist, sublist_filter.
Qed.

Lemma create_habits_NoDup sprint_id specs st :
  NoDup (habits.id <$> st.1) →
  NoDup (habits.id <$> (foldl (create_habit sprint_id) st specs).1).
Proof.
  revert st. induction specs as [|spec specs IH]; intros st Hst; [done|].
  simpl. apply IH. unfold create_habit. simpl.
  rewrite fmap_app. simpl. by apply NoDup_snoc_next_id.
Qed.

Lemma update_hours_ids e table :
  effort_logs.id <$> update_hours e table = effort_logs.id <$> table.
Proof.
  unfold update_hours. rewrite <- list_fmap_compose.
  apply list_fmap_ext. intros i r _. simpl. by case_decide.
Qed.

Lemma delete_sprint_efforts_filter sprint_id db :
  effort_logs_t (delete_sprint_efforts sprint_id db) =
  filter (λ r, Forall (λ h, effort_logs.habit_id r ≠ habits.id h)
                 (fetch_all (λ h, habits.sprint_id h = sprint_id) (habits_t db)))
         (effort_logs_t db).
Proof.
  unfold delete_sprint_efforts.
  generalize (fetch_all (λ h, habits.sprint_id h = sprint_id) (habits_t db)).
  intros hs. revert db. induction hs as [|h hs IH]; intros db.
  - simpl. symmetry. apply filter_all. apply Forall_forall. by intros r _.
  - simpl. rewrite IH. simpl. rewrite list_filter_filter.
    apply list_filter_iff. intros r. rewrite Forall_cons. tauto.
Qed.

Lemma create_sprint_keys_distinct now sprint db :
  keys_distinct db → keys_distinct (create_sprint now sprint db).2.
Proof.
  intros (Hs & Hh & He). unfold create_sprint. simpl. split_and!; simpl.
  - rewrite fmap_app. simpl. by apply NoDup_snoc_next_id.
  - by apply create_habits_NoDup.
  - done.
Qed.

Lemma log_effort_keys_distinct now e db :
  keys_distinct db → keys_distinct (log_effort now e db).2.
Proof.
  intros (Hs & Hh & He). unfold log_effort.
  destruct (fetch_one (same_key e) (effort_logs_t db)); split_and!; simpl; try done.
  - by rewrite update_hours_ids.
  - rewrite fmap_app. simpl. by apply NoDup_snoc_next_id.
Qed.

Lemma delete_sprint_keys_distinct sprint_id db :
  keys_distinct db → keys_distinct (delete_sprint sprint_id db).2.
Proof.
  intros (Hs & Hh & He).
  destruct (delete_sprint_efforts_tables sprint_id db) as (Hs1 & Hh1 & _).
  split_and!; simpl.
  - rewrite Hs1. by apply NoDup_fmap_filter.
  - rewrite Hh1. by apply NoDup_fmap_filter.
  - rewrite delete_sprint_efforts_filter. by apply NoDup_fmap_filter.
Qed.

Lemma reachable_keys_distinct db : reachable db → keys_distinct db.
Proof.
  induction 1 as [|now sprint db _ IH|now e db _ IH|sprint_id db _ IH].
  - split_and!; apply NoDup_nil_2.
  - by apply create_sprint_keys_distinct.
  - by apply log_effort_keys_distinct.
  - by apply delete_sprint_keys_distinct.
Qed.

(** X3.  In every store the service can be in, the identities of each
    table are pairwise distinct and every habit belongs to a sprint that is
    stored. *)
Theorem reachable_store_invariants (db : Database) :
  reachable db →
  NoDup (sprints.id <$> sprints_t db)
  ∧ NoDup (habits.id <$> habits_t db)
  ∧ NoDup (effort_logs.id <$> effort_logs_t db)
  ∧ ∀ h, h ∈ habits_t db → ∃ s, s ∈ sprints_t db ∧ sprints.id s = habits.sprint_id h.
Proof.
  intros Hreach.
  destruct (reachable_keys_distinct db Hreach) as (Hs & Hh & He).
  split_and!; [done..|]. by apply reachable_habits_owned.
Qed.

Lemma reachable_db_Q1_logged : reachable db_Q1_logged.
Proof.
  unfold db_Q1_logged, db_Q1.
  apply reachable_log, reachable_log, reachable_create, reachable_empty.
Defined.

Lemma reachable_store_invariants_witness :
  NoDup (effort_logs.id <$> effort_logs_t db_Q1_logged).
Proof.
  by destruct (reachable_store_invariants db_Q1_logged reachable_db_Q1_logged)
    as (_ & _ & He & _).
Defined.

Lemma reachable_unique_effort_witness : unique_effort db_Q1_logged.
Proof. exact (reachable_unique_effort db_Q1_logged reachable_db_Q1_logged). Defined.

(** ** An upsert, seen by the reading endpoints *)

Lemma get_sprint_ext db db' sprint_id :
  fetch_one (λ s, sprints.id s = sprint_id) (sprints_t db')
    = fetch_one (λ s, sprints.id s = sprint_id) (sprints_t db) →
  fetch_all (λ h, habits.sprint_id h = sprint_id) (habits_t db')
    = fetch_all (λ h, habits.sprint_id h = sprint_id) (habits_t db) →
  effort_query db' sprint_id = effort_query db sprint_id →
  get_sprint db' sprint_id = get_sprint db sprint_id.
Proof. intros Hs Hh He. unfold get_sprint. by rewrite Hs, Hh, He. Qed.

Lemma fetch_one_ext {A : Type} (P Q : A → Prop)
    `{!∀ x, Decision (P x), !∀ x, Decision (Q x)} (table : list A) :
  (∀ x, P x ↔ Q x) → fetch_one P table = fetch_one Q table.
Proof. intros HPQ. unfold fetch_one. by rewrite (list_filter_iff P Q). Qed.

Lemma log_effort_fetch now e db :
  ∃ r, fetch_one (same_key e) (effort_logs_t (log_effort now e db).2) = Some r
       ∧ effort_logs.hours r = ec_hours e.
Proof.
  unfold log_effort.
  destruct (fetch_one (same_key e) (effort_logs_t db)) as [r0|] eqn:Hfetch; simpl.
  - rewrite fetch_one_rows_for in Hfetch |- *.
    pose proof (head_Some_elem_of _ _ Hfetch) as Hkey.
    apply list_elem_of_filter in Hkey as [Hkey _].
    apply head_Some in Hfetch as [l Hrows].
    rewrite rows_for_update, Hrows. unfold update_hours. simpl.
    rewrite decide_True by done. by eexists.
  - rewrite fetch_one_rows_for in Hfetch |- *. apply head_None in Hfetch.
    unfold rows_for in *. rewrite filter_app, Hfetch, filter_cons_True by done.
    by eexists.
Qed.

Lemma rows_for_log_other now e db habit_id date :
  ¬ (habit_id = ec_habit_id e ∧ date = ec_date e) →
  rows_for habit_id date (effort_logs_t (log_effort now e db).2)
    = rows_for habit_id date (effort_logs_t db).
Proof.
  intros Hother. unfold log_effort.
  destruct (fetch_one (same_key e) (effort_logs_t db)) as [r0|]; simpl.
  - rewrite rows_for_update. apply update_hours_id.
    intros r Hr [Hh Hd]. apply list_elem_of_filter in Hr as [[Hh' Hd'] _].
    destruct Hother. split; congruence.
  - unfold rows_for. rewrite filter_app, filter_cons_False, filter_nil.
    + apply app_nil_r.
    + simpl. intros [Hh Hd]. destruct Hother. by split.
Qed.

Lemma daily_effort_log_other now e db date habit :
  ¬ (habits.id habit = ec_habit_id e ∧ date = ec_date e) →
  daily_effort (log_effort now e db).2 date habit = daily_effort db date habit.
Proof.
  intros Hother. unfold daily_effort, fetch_one.
  pose proof (rows_for_log_other now e db (habits.id habit) date Hother) as Hrows.
  unfold rows_for in Hrows. by rewrite Hrows.
Qed.

(** X4.  After an upsert, the daily listing of a sprint for the logged
    date shows the logged hours for every habit of the sprint that has the
    logged identity, whatever was stored before. *)
Theorem log_then_list (now : datetime) (e : EffortCreate) (db : Database)
    (sprint_id : Z) (i : nat) (habit : habits.row) :
  fetch_all (λ h, habits.sprint_id h = sprint_id) (habits_t db) !! i = Some habit →
  habits.id habit = ec_habit_id e →
  ∃ efforts entry,
    get_daily_efforts (log_effort now e db).2 sprint_id (ec_date e) = Ok efforts
    ∧ efforts !! i = Some entry
    ∧ habit_id entry = ec_habit_id e
    ∧ habit_name entry = habits.name habit
    ∧ hours entry = ec_hours e.
Proof.
  intros Hi Hid.
  destruct (log_effort_tables now e db) as [_ Hhabits].
  destruct (log_effort_fetch now e db) as (r & Hfetch & Hhours).
  unfold get_daily_efforts. rewrite Hhabits.
  set (hs := fetch_all (λ h, habits.sprint_id h = sprint_id) (habits_t db)) in *.
  exists (daily_effort (log_effort now e db).2 (ec_date e) <$> hs),
         (daily_effort (log_effort now e db).2 (ec_date e) habit).
  split_and!.
  - by destruct hs.
  - by rewrite list_lookup_fmap, Hi.
  - done.
  - done.
  - unfold daily_effort. simpl. rewrite Hid.
    rewrite (fetch_one_ext _ (same_key e)) by done. by rewrite Hfetch.
Qed.

Lemma log_then_list_witness :
  ∃ efforts entry,
    get_daily_efforts (log_effort 5 (log 1 738886 4) db_Q1_logged).2 1 738886 = Ok efforts
    ∧ efforts !! 0%nat = Some entry
    ∧ this (hours entry) = (4 # 1)%Q.
Proof.
  destruct (log_then_list 5 (log 1 738886 4) db_Q1_logged 1 0
              {| habits.id := 1; habits.sprint_id := 1; habits.name := "Read";
                 habits.weight := Qc_of_Z 50; habits.target_hours := Qc_of_Z 2 |})
    as (efforts & entry & Hget & Hentry & _ & _ & Hhours); [reflexivity..|].
  exists efforts, entry. split_and!; [done..|]. by rewrite Hhours.
Defined.

(** X5.  An upsert changes no entry of a daily listing but those of the
    logged habit on the logged date: the listing of another date, and the
    listing of a sprint none of whose habits has the logged identity, are
    what they were. *)
Theorem log_effort_listing_frame (now : datetime) (e : EffortCreate) (db : Database)
    (sprint_id : Z) (date : date) :
  (date ≠ ec_date e
   ∨ ∀ h, h ∈ habits_t db → habits.sprint_id h = sprint_id →
          habits.id h ≠ ec_habit_id e) →
  get_daily_efforts (log_effort now e db).2 sprint_id date
    = get_daily_efforts db sprint_id date.
Proof.
  intros Hother.
  destruct (log_effort_tables now e db) as [_ Hhabits].
  unfold get_daily_efforts. rewrite Hhabits.
  assert (daily_effort (log_effort now e db).2 date
            <$> fetch_all (λ h, habits.sprint_id h = sprint_id) (habits_t db)
          = daily_effort db date
            <$> fetch_all (λ h, habits.sprint_id h = sprint_id) (habits_t db))
    as Heq; [|by rewrite Heq].
  apply list_fmap_ext. intros i habit Hi.
  apply daily_effort_log_other. intros [Hid Hd].
  destruct Hother as [Hdate|Hnone]; [done|].
  apply list_elem_of_lookup_2, list_elem_of_filter in Hi as [Hsid Hin].
  by apply (Hnone habit).
Qed.

Lemma log_effort_listing_frame_witness :
  get_daily_efforts (log_effort 5 (log 1 738886 4) db_Q1_logged).2 1 738887
    = get_daily_efforts db_Q1_logged 1 738887.
Proof.
  apply (log_effort_listing_frame 5 (log 1 738886 4) db_Q1_logged 1 738887).
  left. simpl. lia.
Defined.

Lemma effort_query_update e db sprint_id :
  effort_query {| sprints_t := sprints_t db; habits_t := habits_t db;
                  effort_logs_t := update_hours e (effort_logs_t db) |} sprint_id
  = set_effort_hours e <$> effort_query db sprint_id.
Proof.
  unfold effort_query, update_hours. simpl.
  induction (effort_logs_t db) as [|r table IH]; [done|].
  rewrite fmap_cons, !bind_cons, fmap_app, IH. f_equal.
  rewrite <- list_fmap_compose.
  destruct (decide (same_key e r)) as [[Hh Hd]|Hkey].
  - apply list_fmap_ext. intros i h _.
    unfold set_effort_hours. simpl. rewrite decide_True; [done|].
    by rewrite Hd.
  - apply list_fmap_ext. intros i h _.
    unfold set_effort_hours. simpl. rewrite decide_False; [done|].
    intros [Hh Hd]. apply Hkey. split; [done|]. by inversion Hd.
Qed.

Lemma effort_query_insert (r : effort_logs.row) db sprint_id :
  effort_query {| sprints_t := sprints_t db; habits_t := habits_t db;
                  effort_logs_t := effort_logs_t db ++ [r] |} sprint_id
  = effort_query db sprint_id ++
    (join_row r <$>
       filter (λ h, effort_logs.habit_id r = habits.id h ∧ habits.sprint_id h = sprint_id)
              (habits_t db)).
Proof. unfold effort_query. simpl. by rewrite bind_app, bind_singleton. Qed.

Lemma effort_query_log_other_habit now e db sprint_id :
  (∀ h, h ∈ habits_t db → habits.sprint_id h = sprint_id →
        habits.id h ≠ ec_habit_id e) →
  effort_query (log_effort now e db).2 sprint_id = effort_query db sprint_id.
Proof.
  intros Hnone. unfold log_effort.
  destruct (fetch_one (same_key e) (effort_logs_t db)) as [r0|]; simpl.
  - rewrite effort_query_update.
    rewrite <- (list_fmap_id (effort_query db sprint_id)) at 2.
    apply list_fmap_ext. intros i j Hj.
    apply list_elem_of_lookup_2, elem_of_effort_query in Hj
      as (r & h & _ & Hh & Hid & Hsid & ->).
    unfold set_effort_hours. rewrite decide_False; [done|].
    simpl. intros [Heq _]. apply (Hnone h Hh Hsid). congruence.
  - rewrite effort_query_insert. simpl.
    rewrite filter_none; [apply app_nil_r|].
    apply Forall_forall. intros h Hh [Hid Hsid]. by apply (Hnone h).
Qed.

(** X6.  An upsert for a habit identity that no habit of a sprint has (a
    habit of another sprint, or no habit at all) does not change the
    retrieval of that sprint. *)
Theorem log_effort_other_habit (now : datetime) (e : EffortCreate) (db : Database)
    (sprint_id : Z) :
  (∀ h, h ∈ habits_t db → habits.sprint_id h = sprint_id →
        habits.id h ≠ ec_habit_id e) →
  get_sprint (log_effort now e db).2 sprint_id = get_sprint db sprint_id.
Proof.
  intros Hnone. destruct (log_effort_tables now e db) as [Hs Hh].
  apply get_sprint_ext; [by rewrite Hs|by rewrite Hh|].
  by apply effort_query_log_other_habit.
Qed.

Lemma log_effort_other_habit_witness :
  get_sprint (log_effort 5 (log 42 738886 4) db_Q1_logged).2 1
    = get_sprint db_Q1_logged 1.
Proof.
  apply (log_effort_other_habit 5 (log 42 738886 4) db_Q1_logged 1).
  intros h Hh _. vm_compute in Hh. apply list_elem_of_singleton in Hh.
  subst h. simpl. lia.
Defined.

Lemma log_effort_keeps_rows now e db r :
  r ∈ effort_logs_t db →
  ∃ r', r' ∈ effort_logs_t (log_effort now e db).2
        ∧ effort_logs.habit_id r' = effort_logs.habit_id r.
Proof.
  intros Hr. unfold log_effort.
  destruct (fetch_one (same_key e) (effort_logs_t db)) as [r0|]; simpl.
  - eexists. split; [unfold update_hours; by apply list_elem_of_fmap_2|].
    by case_decide.
  - exists r. split; [|done]. apply elem_of_app. by left.
Qed.

(** X7.  An upsert never repairs a retrieval: a sprint whose retrieval
    fails before an upsert fails after it, with the same response. *)
Theorem log_effort_keeps_failure (now : datetime) (e : EffortCreate) (db : Database)
    (sprint_id : Z) (err : exn) :
  get_sprint db sprint_id = Raise err →
  get_sprint (log_effort now e db).2 sprint_id = Raise err.
Proof.
  intros Hget. destruct (log_effort_tables now e db) as [Hs Hh].
  destruct (fetch_one (λ s, sprints.id s = sprint_id) (sprints_t db))
    as [sprint|] eqn:Hsprint.
  - destruct (effort_query db sprint_id) as [|j l] eqn:E.
    { by rewrite (get_sprint_unjoined _ _ _ Hsprint E) in Hget. }
    assert (effort_query db sprint_id ≠ []) as Hne by by rewrite E.
    rewrite (get_sprint_joined _ _ _ Hsprint Hne) in Hget. rewrite <- Hget.
    apply (get_sprint_joined _ _ sprint); [by rewrite Hs|].
    apply effort_query_joined in Hne as (r & h & Hr & Hin & Hid & Hsid).
    destruct (log_effort_keeps_rows now e db r Hr) as (r' & Hr' & Hid').
    apply effort_query_joined. exists r', h.
    rewrite Hh. split_and!; [done..|congruence|done].
  - rewrite get_sprint_absent in Hget by done.
    rewrite get_sprint_absent; [done|by rewrite Hs].
Qed.

Lemma log_effort_keeps_failure_witness :
  get_sprint (log_effort 5 (log 42 738900 7) db_Q1_logged).2 1
    = Raise (HTTPException 500 (str (TypeError unsupported_sub))).
Proof.
  apply (log_effort_keeps_failure 5 (log 42 738900 7) db_Q1_logged 1).
  reflexivity.
Defined.

(** X8.  After an upsert for a habit of a stored sprint, whatever its
    date and hours and whatever the habit's target, the retrieval of the
    sprint fails: the subtraction [effort.date - sprint.start_date] raises
    [TypeError] on the joined row, and the endpoint answers with the 500
    carrying it. *)
Theorem log_then_get_fails (now : datetime) (e : EffortCreate) (db : Database)
    (sprint_id : Z) (habit : habits.row) :
  (∃ s, s ∈ sprints_t db ∧ sprints.id s = sprint_id) →
  habit ∈ habits_t db → habits.sprint_id habit = sprint_id →
  habits.id habit = ec_habit_id e →
  get_sprint (log_effort now e db).2 sprint_id
    = Raise (HTTPException 500 (str (TypeError unsupported_sub))).
Proof.
  intros (s & Hs & Hid) Hhabit Hsid Hkey.
  destruct (log_effort_tables now e db) as [Hsprints Hhabits].
  destruct (fetch_one_is_Some (λ s, sprints.id s = sprint_id) (sprints_t db) s Hs Hid)
    as [sprint Hsprint].
  destruct (log_effort_fetch now e db) as (r & Hfetch & _).
  apply fetch_one_elem_of in Hfetch as [Hr [Hrh _]].
  apply (get_sprint_joined _ _ sprint); [by rewrite Hsprints|].
  apply effort_query_joined. exists r, habit.
  rewrite Hhabits. split_and!; [done..|congruence|done].
Qed.

Lemma log_then_get_fails_witness :
  get_sprint (log_effort 0 (log 1 738886 1) db_Q1).2 1
    = Raise (HTTPException 500 (str (TypeError unsupported_sub))).
Proof.
  apply (log_then_get_fails 0 (log 1 738886 1) db_Q1 1
           {| habits.id := 1; habits.sprint_id := 1; habits.name := "Read";
              habits.weight := Qc_of_Z 50; habits.target_hours := Qc_of_Z 2 |}).
  - exists sprint_Q1. split; [vm_compute; left|reflexivity].
  - vm_compute. left.
  - reflexivity.
  - reflexivity.
Defined.

(** ** Creation and deletion, seen by the reading endpoints *)

Lemma filter_filter_implies {A : Type} (P Q : A → Prop)
    `{!∀ x, Decision (P x), !∀ x, Decision (Q x)} (l : list A) :
  (∀ x, x ∈ l → P x → Q x) → filter P (filter Q l) = filter P l.
Proof.
  intros HPQ. induction l as [|x l IH]; [done|].
  assert (filter P (filter Q l) = filter P l) as IH'.
  { apply IH. intros y Hy. apply HPQ. by right. }
  rewrite (filter_cons Q). destruct (decide (Q x)) as [HQ|HQ].
  - by rewrite !filter_cons, IH'.
  - rewrite IH', filter_cons_False; [done|].
    intros HP. apply HQ, HPQ; [by left|done].
Qed.

Lemma bind_filter_nil {A B : Type} (f : A → list B) (Q : A → Prop)
    `{!∀ x, Decision (Q x)} (l : list A) :
  (∀ x, x ∈ l → ¬ Q x → f x = []) → filter Q l ≫= f = l ≫= f.
Proof.
  intros Hnil. induction l as [|x l IH]; [done|].
  assert (filter Q l ≫= f = l ≫= f) as IH'.
  { apply IH. intros y Hy. apply Hnil. by right. }
  rewrite filter_cons. destruct (decide (Q x)) as [HQ|HQ].
  - by rewrite !bind_cons, IH'.
  - rewrite bind_cons, IH', (Hnil x); [done|by left|done].
Qed.

Lemma NoDup_fmap_elem_inj {A B : Type} (f : A → B) (l : list A) (x y : A) :
  NoDup (f <$> l) → x ∈ l → y ∈ l → f x = f y → x = y.
Proof.
  intros Hdup Hx Hy Hf. induction l as [|z l IH].
  - by apply elem_of_nil in Hx.
  - rewrite fmap_cons in Hdup. apply NoDup_cons in Hdup as [Hfresh Hdup].
    apply elem_of_cons in Hx as [->|Hx], Hy as [->|Hy].
    + done.
    + destruct Hfresh. rewrite Hf. by apply list_elem_of_fmap_2.
    + destruct Hfresh. rewrite <- Hf. by apply list_elem_of_fmap_2.
    + by apply IH.
Qed.

Lemma delete_sprint_tables sprint_id db :
  (delete_sprint sprint_id db).2 =
    {| sprints_t := filter (λ s, sprints.id s ≠ sprint_id) (sprints_t db);
       habits_t := filter (λ h, habits.sprint_id h ≠ sprint_id) (habits_t db);
       effort_logs_t :=
         filter (λ r, Forall (λ h, effort_logs.habit_id r ≠ habits.id h)
                        (fetch_all (λ h, habits.sprint_id h = sprint_id) (habits_t db)))
                (effort_logs_t db) |}.
Proof.
  destruct (delete_sprint_efforts_tables sprint_id db) as (Hs & Hh & _).
  unfold delete_sprint, delete_sprints, delete_habits. simpl.
  by rewrite Hs, Hh, delete_sprint_efforts_filter.
Qed.

Lemma delete_sprint_gone sprint_id db :
  (∀ s, s ∈ sprints_t db → sprints.id s ≠ sprint_id) →
  (∀ h, h ∈ habits_t db → habits.sprint_id h ≠ sprint_id) →
  (delete_sprint sprint_id db).2 = db.
Proof.
  intros Hs Hh. rewrite delete_sprint_tables.
  rewrite (fetch_all_nil (λ h, habits.sprint_id h = sprint_id))
    by (intros h Hin Hsid; by apply (Hh h)).
  rewrite !filter_all; [apply Database_eta|..].
  - apply Forall_forall. by intros r _.
  - by apply Forall_forall.
  - by apply Forall_forall.
Qed.

(** X9.  Deleting a sprint a second time changes nothing and is answered
    as the first time. *)
Theorem delete_sprint_twice (sprint_id : Z) (db : Database) :
  delete_sprint sprint_id (delete_sprint sprint_id db).2
    = delete_sprint sprint_id db.
Proof.
  apply injective_projections; [done|].
  apply delete_sprint_gone; rewrite delete_sprint_tables; simpl.
  - intros s Hs. by apply list_elem_of_filter in Hs as [Hid _].
  - intros h Hh. by apply list_elem_of_filter in Hh as [Hsid _].
Qed.

Lemma create_sprint_fetch_others now sprint db sprint_id' :
  sprint_id' ≠ next_id (sprints.id <$> sprints_t db) →
  fetch_one (λ s, sprints.id s = sprint_id')
            (sprints_t (create_sprint now sprint db).2)
    = fetch_one (λ s, sprints.id s = sprint_id') (sprints_t db)
  ∧ fetch_all (λ h, habits.sprint_id h = sprint_id')
              (habits_t (create_sprint now sprint db).2)
    = fetch_all (λ h, habits.sprint_id h = sprint_id') (habits_t db)
  ∧ effort_query (create_sprint now sprint db).2 sprint_id'
    = effort_query db sprint_id'.
Proof.
  intros Hne. rewrite create_sprint_tables. simpl.
  assert (∀ (P : habits.row → Prop) `{!∀ h, Decision (P h)},
            (∀ h, P h → habits.sprint_id h = sprint_id') →
            filter P (habits_t db ++
                      imap (new_habit (next_id (sprints.id <$> sprints_t db))
                              (next_id (habits.id <$> habits_t db)))
                           (sc_habits sprint))
            = filter P (habits_t db)) as Hold.
  { intros P HP Hsid. rewrite filter_app, (filter_none P (imap _ _)).
    - apply app_nil_r.
    - apply Forall_forall. intros h Hh HPh. apply Hsid in HPh.
      apply list_elem_of_lookup in Hh as [i Hi].
      rewrite list_lookup_imap in Hi.
      destruct (sc_habits sprint !! i); simpl in Hi; [|done].
      inversion Hi; subst h. simpl in HPh. congruence. }
  split_and!.
  - unfold fetch_one. rewrite filter_app, filter_cons_False, filter_nil.
    + by rewrite app_nil_r.
    + simpl. congruence.
  - unfold fetch_all. by apply Hold.
  - unfold effort_query. simpl. apply list_bind_ext; [|done].
    intros r. f_equal. apply Hold. by intros h [_ Hsid].
Qed.

(** X10.  Creating a sprint changes neither the retrieval nor the daily
    listing of any identity other than the one it assigns. *)
Theorem create_sprint_keeps_others (now : datetime) (sprint : SprintCreate)
    (db : Database) (sprint_id' : Z) :
  sprint_id' ≠ next_id (sprints.id <$> sprints_t db) →
  get_sprint (create_sprint now sprint db).2 sprint_id' = get_sprint db sprint_id'
  ∧ ∀ date, get_daily_efforts (create_sprint now sprint db).2 sprint_id' date
            = get_daily_efforts db sprint_id' date.
Proof.
  intros Hne.
  destruct (create_sprint_fetch_others now sprint db sprint_id' Hne)
    as (Hs & Hh & He).
  split; [by apply get_sprint_ext|].
  intros date. unfold get_daily_efforts. rewrite Hh.
  by rewrite create_sprint_tables.
Qed.

Lemma create_sprint_keeps_others_witness :
  get_sprint (create_sprint 3 twice_Read db_Q1_logged).2 1 = get_sprint db_Q1_logged 1.
Proof.
  destruct (create_sprint_keeps_others 3 twice_Read db_Q1_logged 1) as [Hget _];
    [|exact Hget].
  vm_compute. discriminate.
Defined.

Lemma delete_sprint_fetch_others sprint_id sprint_id' db :
  NoDup (habits.id <$> habits_t db) → sprint_id' ≠ sprint_id →
  fetch_one (λ s, sprints.id s = sprint_id')
            (sprints_t (delete_sprint sprint_id db).2)
    = fetch_one (λ s, sprints.id s = sprint_id') (sprints_t db)
  ∧ fetch_all (λ h, habits.sprint_id h = sprint_id')
              (habits_t (delete_sprint sprint_id db).2)
    = fetch_all (λ h, habits.sprint_id h = sprint_id') (habits_t db)
  ∧ effort_query (delete_sprint sprint_id db).2 sprint_id'
    = effort_query db sprint_id'
  ∧ ∀ date habit, habit ∈ habits_t db → habits.sprint_id habit = sprint_id' →
      daily_effort (delete_sprint sprint_id db).2 date habit
        = daily_effort db date habit.
Proof.
  intros Hdup Hne. rewrite delete_sprint_tables. simpl.
  (* a deleted effort log belongs to a habit of the deleted sprint only *)
  assert (∀ r h, ¬ Forall (λ h0, effort_logs.habit_id r ≠ habits.id h0)
                   (fetch_all (λ h0, habits.sprint_id h0 = sprint_id) (habits_t db)) →
                 h ∈ habits_t db → effort_logs.habit_id r = habits.id h →
                 habits.sprint_id h = sprint_id) as Hdeleted.
  { intros r h Hnot Hh Hid.
    apply not_Forall_Exists in Hnot; [|apply _].
    apply Exists_exists in Hnot as (h0 & Hh0 & Heq).
    apply list_elem_of_filter in Hh0 as [Hsid0 Hh0].
    destruct (decide (effort_logs.habit_id r = habits.id h0)) as [Hid0|]; [|done].
    assert (h = h0) as ->; [|done].
    apply (NoDup_fmap_elem_inj habits.id (habits_t db)); [done..|congruence]. }
  split_and!.
  - unfold fetch_one. rewrite filter_filter_implies; [done|].
    intros s _ Hid. congruence.
  - unfold fetch_all. rewrite filter_filter_implies; [done|].
    intros h _ Hsid. congruence.
  - unfold effort_query. simpl.
    rewrite <- (bind_filter_nil
      (λ e, join_row e <$>
              filter (λ h, effort_logs.habit_id e = habits.id h
                           ∧ habits.sprint_id h = sprint_id') (habits_t db))
      (λ r, Forall (λ h, effort_logs.habit_id r ≠ habits.id h)
              (fetch_all (λ h, habits.sprint_id h = sprint_id) (habits_t db)))
      (effort_logs_t db)).
    + apply list_bind_ext; [|done]. intros r. f_equal.
      apply filter_filter_implies. intros h _ [_ Hsid]. congruence.
    + intros r _ Hnot. rewrite filter_none; [done|].
      apply Forall_forall. intros h Hh [Hid Hsid].
      apply Hne. rewrite <- Hsid. by apply (Hdeleted r h).
  - intros date habit Hh Hsid. unfold daily_effort, fetch_one. simpl.
    rewrite filter_filter_implies; [done|].
    intros r _ [Hid _].
    destruct (decide (Forall (λ h, effort_logs.habit_id r ≠ habits.id h)
                (fetch_all (λ h, habits.sprint_id h = sprint_id) (habits_t db))))
      as [|Hnot]; [done|].
    destruct Hne. rewrite <- Hsid. by apply (Hdeleted r habit).
Qed.

(** X11.  In a store the service can be in, deleting a sprint changes
    neither the retrieval nor the daily listing of any other sprint
    identity. *)
Theorem delete_sprint_keeps_others (sprint_id sprint_id' : Z) (db : Database) :
  reachable db → sprint_id' ≠ sprint_id →
  get_sprint (delete_sprint sprint_id db).2 sprint_id' = get_sprint db sprint_id'
  ∧ ∀ date, get_daily_efforts (delete_sprint sprint_id db).2 sprint_id' date
            = get_daily_efforts db sprint_id' date.
Proof.
  intros Hreach Hne.
  destruct (reachable_keys_distinct db Hreach) as (_ & Hdup & _).
  destruct (delete_sprint_fetch_others sprint_id sprint_id' db Hdup Hne)
    as (Hs & Hh & He & Hdaily).
  split; [by apply get_sprint_ext|].
  intros date. unfold get_daily_efforts. rewrite Hh.
  assert (daily_effort (delete_sprint sprint_id db).2 date
            <$> fetch_all (λ h, habits.sprint_id h = sprint_id') (habits_t db)
          = daily_effort db date
            <$> fetch_all (λ h, habits.sprint_id h = sprint_id') (habits_t db))
    as Heq; [|by rewrite Heq].
  apply list_fmap_ext. intros i habit Hi.
  apply list_elem_of_lookup_2, list_elem_of_filter in Hi as [Hsid Hin].
  by apply Hdaily.
Qed.

(** A store with the sprint Q1, logged, and a second sprint. *)
Lemma reachable_two_sprints :
  reachable (create_sprint 3 twice_Read db_Q1_logged).2.
Proof. apply reachable_create, reachable_db_Q1_logged. Defined.

Lemma delete_sprint_keeps_others_witness :
  get_sprint (delete_sprint 2 (create_sprint 3 twice_Read db_Q1_logged).2).2 1
    = get_sprint (create_sprint 3 twice_Read db_Q1_logged).2 1.
Proof.
  destruct (delete_sprint_keeps_others 2 1 (create_sprint 3 twice_Read db_Q1_logged).2)
    as [Hget _]; [exact reachable_two_sprints|lia|exact Hget].
Defined.

(** ** Creation followed by retrieval or deletion *)

Lemma create_sprint_fetch_new (sprint : SprintCreate) db :
  habits_owned db →
  let sprint_id := next_id (sprints.id <$> sprints_t db) in
  let rows := imap (new_habit sprint_id (next_id (habits.id <$> habits_t db)))
                   (sc_habits sprint) in
  filter (λ s, sprints.id s = sprint_id) (sprints_t db) = []
  ∧ filter (λ h, habits.sprint_id h = sprint_id) (habits_t db) = []
  ∧ filter (λ h, habits.sprint_id h = sprint_id) rows = rows
  ∧ ∀ h, h ∈ rows → next_id (habits.id <$> habits_t db) ≤ habits.id h.
Proof.
  intros Howned sprint_id rows.
  assert (∀ s, s ∈ sprints_t db → sprints.id s ≠ sprint_id) as Hfresh.
  { intros s Hs. assert (sprints.id s < sprint_id); [|lia].
    apply next_id_fresh. by apply list_elem_of_fmap_2. }
  assert (∀ h, h ∈ rows →
            habits.sprint_id h = sprint_id
            ∧ next_id (habits.id <$> habits_t db) ≤ habits.id h) as Hrows.
  { intros h Hh. apply list_elem_of_lookup in Hh as [i Hi].
    unfold rows in Hi. rewrite list_lookup_imap in Hi.
    destruct (sc_habits sprint !! i); simpl in Hi; [|done].
    inversion Hi. simpl. split; [done|lia]. }
  split_and!.
  - apply filter_none, Forall_forall. exact Hfresh.
  - apply filter_none, Forall_forall. intros h Hh Hsid.
    destruct (Howned h Hh) as (s & Hs & Hid). apply (Hfresh s Hs). congruence.
  - apply filter_all, Forall_forall. intros h Hh. by apply Hrows.
  - intros h Hh. by apply Hrows.
Qed.

(** X12.  In a store the service can be in, where no effort log names a
    habit identity that is not assigned yet, a created sprint is retrieved
    under the returned identity with the submitted name and dates, its
    habits as submitted and in order, and every day unset. *)
Theorem create_then_get (now : datetime) (sprint : SprintCreate) (db : Database) :
  reachable db →
  (∀ r, r ∈ effort_logs_t db →
        effort_logs.habit_id r < next_id (habits.id <$> habits_t db)) →
  let sprint_id := next_id (sprints.id <$> sprints_t db) in
  ∃ habit_ids,
    (create_sprint now sprint db).1
      = Ok {| c_sprint_id := sprint_id; c_habit_ids := habit_ids |}
    ∧ get_sprint (create_sprint now sprint db).2 sprint_id =
        Ok {| r_id := sprint_id;
              r_name := sc_name sprint;
              r_start_date := sc_start_date sprint;
              r_end_date := sc_end_date sprint;
              r_habits :=
                imap (new_habit sprint_id (next_id (habits.id <$> habits_t db)))
                     (sc_habits sprint);
              r_days := replicate
                (Z.to_nat (sc_end_date sprint - sc_start_date sprint + 1)) None |}.
Proof.
  intros Hreach Hlogs sprint_id.
  destruct (create_sprint_fetch_new sprint db (reachable_habits_owned db Hreach))
    as (Hs & Hh & Hrows & Hids).
  rewrite create_sprint_tables. fold sprint_id.
  set (rows := imap (new_habit sprint_id (next_id (habits.id <$> habits_t db)))
                    (sc_habits sprint)) in *.
  eexists. split; [done|]. simpl.
  set (db' := {| sprints_t := _; habits_t := habits_t db ++ rows;
                 effort_logs_t := effort_logs_t db |}).
  assert (effort_query db' sprint_id = []) as Hquery.
  { destruct (effort_query db' sprint_id) as [|j l] eqn:E; [done|].
    assert (j ∈ effort_query db' sprint_id) as Hj by (rewrite E; left).
    apply elem_of_effort_query in Hj as (r & h & Hr & Hhab & Hid & Hsid & _).
    simpl in Hr, Hhab. apply elem_of_app in Hhab as [Hold|Hnew].
    - by destruct (filter_nil_not_elem_of _ _ h Hh Hsid).
    - apply Hids in Hnew. apply Hlogs in Hr. lia. }
  rewrite (get_sprint_found db' sprint_id
             {| sprints.id := sprint_id; sprints.name := sc_name sprint;
                sprints.start_date := sc_start_date sprint;
                sprints.end_date := sc_end_date sprint;
                sprints.created_at := now |}).
  - rewrite Hquery. simpl. unfold fetch_all. simpl.
    subst db' rows sprint_id. by rewrite filter_app, Hh, Hrows.
  - unfold fetch_one. simpl.
    subst db' rows sprint_id. by rewrite filter_app, Hs, filter_cons_True.
Qed.

Lemma create_then_get_witness :
  ∃ resp, get_sprint (create_sprint 0 Q1 empty_db).2 1 = Ok resp
          ∧ r_days resp = [None; None; None]
          ∧ habits.name <$> r_habits resp = ["Read"].
Proof.
  destruct (create_then_get 0 Q1 empty_db) as (habit_ids & _ & Hget).
  - exact reachable_empty.
  - intros r Hr. by apply elem_of_nil in Hr.
  - eexists. split; [exact Hget|]. split; reflexivity.
Defined.

Lemma create_sprint_rows now sprint db :
  habits_owned db →
  (∀ r, r ∈ effort_logs_t db →
        effort_logs.habit_id r < next_id (habits.id <$> habits_t db)) →
  let sprint_id := next_id (sprints.id <$> sprints_t db) in
  let db' := (create_sprint now sprint db).2 in
  (∀ s, s ∈ sprints_t db → sprints.id s ≠ sprint_id)
  ∧ (∀ h, h ∈ habits_t db → habits.sprint_id h ≠ sprint_id)
  ∧ fetch_all (λ h, habits.sprint_id h = sprint_id) (habits_t db')
    = imap (new_habit sprint_id (next_id (habits.id <$> habits_t db)))
           (sc_habits sprint)
  ∧ ∀ r h, r ∈ effort_logs_t db →
           h ∈ fetch_all (λ h, habits.sprint_id h = sprint_id) (habits_t db') →
           effort_logs.habit_id r ≠ habits.id h.
Proof.
  intros Howned Hlogs sprint_id db'.
  destruct (create_sprint_fetch_new sprint db Howned) as (Hs & Hh & Hrows & Hids).
  assert (fetch_all (λ h, habits.sprint_id h = sprint_id) (habits_t db')
          = imap (new_habit sprint_id (next_id (habits.id <$> habits_t db)))
                 (sc_habits sprint)) as Hall.
  { unfold db', fetch_all. rewrite create_sprint_tables. simpl.
    subst sprint_id. by rewrite filter_app, Hh, Hrows. }
  split_and!.
  - intros s Hin Hid. by destruct (filter_nil_not_elem_of _ _ s Hs Hid).
  - intros h Hin Hsid. by destruct (filter_nil_not_elem_of _ _ h Hh Hsid).
  - exact Hall.
  - intros r h Hr Hin. rewrite Hall in Hin.
    apply Hids in Hin. apply Hlogs in Hr. lia.
Qed.

(** X13.  In a store the service can be in, where no effort log names a
    habit identity that is not assigned yet, deleting a sprint right after
    creating it gives back the store as it was before the creation. *)
Theorem create_then_delete (now : datetime) (sprint : SprintCreate) (db : Database) :
  reachable db →
  (∀ r, r ∈ effort_logs_t db →
        effort_logs.habit_id r < next_id (habits.id <$> habits_t db)) →
  (delete_sprint (next_id (sprints.id <$> sprints_t db))
                 (create_sprint now sprint db).2).2 = db.
Proof.
  intros Hreach Hlogs.
  destruct (create_sprint_rows now sprint db (reachable_habits_owned db Hreach) Hlogs)
    as (Hs & Hh & Hall & Hfresh).
  rewrite delete_sprint_tables. rewrite Hall.
  rewrite create_sprint_tables. simpl.
  rewrite !filter_app.
  rewrite (filter_all _ (sprints_t db)) by by apply Forall_forall.
  rewrite (filter_all _ (habits_t db)) by by apply Forall_forall.
  rewrite (filter_all _ (effort_logs_t db)).
  - rewrite filter_cons_False, filter_nil by (simpl; intros Hne; by apply Hne).
    rewrite (filter_none _ (imap _ _)).
    + rewrite !app_nil_r. apply Database_eta.
    + apply Forall_forall. intros h Hin Hne. apply Hne.
      apply list_elem_of_lookup in Hin as [i Hi].
      rewrite list_lookup_imap in Hi.
      destruct (sc_habits sprint !! i); simpl in Hi; [|done]. by inversion Hi.
  - apply Forall_forall. intros r Hr. apply Forall_forall. intros h Hin.
    apply (Hfresh r h Hr). by rewrite Hall.
Qed.

Lemma create_then_delete_witness :
  (delete_sprint 2 (create_sprint 3 twice_Read db_Q1_logged).2).2 = db_Q1_logged.
Proof.
  apply (create_then_delete 3 twice_Read db_Q1_logged).
  - exact reachable_db_Q1_logged.
  - intros r Hr. vm_compute in Hr.
    apply elem_of_cons in Hr as [->|Hr]; [reflexivity|].
    apply list_elem_of_singleton in Hr as ->. reflexivity.
Defined.

(** X14.  In a store the service can be in, where no effort log names a
    habit identity that is not assigned yet, the daily listing of a sprint
    just created with at least one habit has, for any date, one entry per
    submitted habit, in order, with its name, its new identity and zero
    hours; created without habits, the sprint is listed as not found. *)
Theorem create_then_list (now : datetime) (sprint : SprintCreate) (db : Database)
    (date : date) :
  reachable db →
  (∀ r, r ∈ effort_logs_t db →
        effort_logs.habit_id r < next_id (habits.id <$> habits_t db)) →
  get_daily_efforts (create_sprint now sprint db).2
                    (next_id (sprints.id <$> sprints_t db)) date =
    match sc_habits sprint with
    | [] => Raise (HTTPException 500
               (str (HTTPException 404 (Text "Sprint not found or has no habits"))))
    | _ => Ok (imap (λ i habit,
                       {| habit_name := hc_name habit;
                          habit_id := next_id (habits.id <$> habits_t db) + Z.of_nat i;
                          hours := 0%Qc |})
                    (sc_habits sprint))
    end.
Proof.
  intros Hreach Hlogs.
  destruct (create_sprint_rows now sprint db (reachable_habits_owned db Hreach) Hlogs)
    as (_ & _ & Hall & Hfresh).
  assert (daily_effort (create_sprint now sprint db).2 date
            <$> imap (new_habit (next_id (sprints.id <$> sprints_t db))
                        (next_id (habits.id <$> habits_t db))) (sc_habits sprint)
          = imap (λ i habit,
                    {| habit_name := hc_name habit;
                       habit_id := next_id (habits.id <$> habits_t db) + Z.of_nat i;
                       hours := 0%Qc |})
                 (sc_habits sprint)) as Hentries.
  { rewrite fmap_imap. apply imap_ext. intros i spec Hi. simpl.
    unfold daily_effort, new_habit. simpl. f_equal.
    rewrite (proj2 (fetch_one_None _ _)); [done|].
    intros r Hr [Hid _].
    apply (Hfresh r (new_habit (next_id (sprints.id <$> sprints_t db))
                       (next_id (habits.id <$> habits_t db)) i spec) Hr); [|done].
    rewrite Hall. apply list_elem_of_lookup. exists i.
    by rewrite list_lookup_imap, Hi. }
  unfold get_daily_efforts. rewrite Hall.
  destruct (sc_habits sprint) as [|habit habits]; [done|].
  by rewrite <- Hentries.
Qed.

Lemma create_then_list_witness :
  ∃ efforts,
    get_daily_efforts (create_sprint 3 twice_Read db_Q1_logged).2 2 738886 = Ok efforts
    ∧ (λ e, (habit_id e, habit_name e, this (hours e))) <$> efforts
      = [(2, "Read", (0 # 1)%Q); (3, "Read", (0 # 1)%Q)].
Proof.
  pose proof (create_then_list 3 twice_Read db_Q1_logged 738886) as Hlist.
  eexists. split.
  - apply Hlist.
    + exact reachable_db_Q1_logged.
    + intros r Hr. vm_compute in Hr.
      apply elem_of_cons in Hr as [->|Hr]; [reflexivity|].
      apply list_elem_of_singleton in Hr as ->. reflexivity.
  - reflexivity.
Defined.

(** ** The outcome of a retrieval *)

(** X15.  The retrieval of a stored sprint succeeds exactly when no effort
    log is stored for any habit of the sprint, and fails with the 500 of
    the [TypeError] exactly when one is, whatever the log's date and hours
    and the habit's target. *)
Theorem get_sprint_outcome (db : Database) (sprint_id : Z) :
  (∃ s, s ∈ sprints_t db ∧ sprints.id s = sprint_id) →
  ((∃ resp, get_sprint db sprint_id = Ok resp) ↔
   ∀ r h, r ∈ effort_logs_t db → h ∈ habits_t db →
          habits.sprint_id h = sprint_id →
          effort_logs.habit_id r ≠ habits.id h)
  ∧ (get_sprint db sprint_id
       = Raise (HTTPException 500 (str (TypeError unsupported_sub))) ↔
     ∃ r h, r ∈ effort_logs_t db ∧ h ∈ habits_t db
            ∧ habits.sprint_id h = sprint_id
            ∧ effort_logs.habit_id r = habits.id h).
Proof.
  intros (s & Hs & Hid).
  destruct (fetch_one_is_Some (λ s, sprints.id s = sprint_id) (sprints_t db) s Hs Hid)
    as [sprint Hsprint].
  destruct (effort_query db sprint_id) as [|j l] eqn:E.
  - assert (¬ effort_query db sprint_id ≠ []) as Hnone by (rewrite E; tauto).
    rewrite effort_query_joined in Hnone.
    rewrite (get_sprint_unjoined _ _ _ Hsprint E). split; split.
    + intros _ r h Hr Hh Hsid Heq. apply Hnone. by exists r, h.
    + eauto.
    + done.
    + intros (r & h & Hr & Hh & Hsid & Heq). destruct Hnone. by exists r, h.
  - assert (effort_query db sprint_id ≠ []) as Hne by by rewrite E.
    rewrite (get_sprint_joined _ _ _ Hsprint Hne).
    apply effort_query_joined in Hne as (r & h & Hr & Hh & Heq & Hsid).
    split; split.
    + by intros [resp Hresp].
    + intros Hnone. by destruct (Hnone r h).
    + intros _. by exists r, h.
    + done.
Qed.

Lemma get_sprint_outcome_witness :
  get_sprint db_zero_target_outside 1
    = Raise (HTTPException 500 (str (TypeError unsupported_sub))).
Proof.
  destruct (get_sprint_outcome db_zero_target_outside 1) as [_ [_ Hfail]].
  - exists sprint_Q1. split; [vm_compute; left|reflexivity].
  - apply Hfail. eexists _, _. split_and!.
    + vm_compute. left.
    + vm_compute. left.
    + reflexivity.
    + reflexivity.
Defined.
